(** * Elix career advisor: the backend of src/app.py, embedded and verified

    The development follows the source file top to bottom:

    - [PyStr]: the Python string operations the program uses ([lower],
      [strip], [in], [split], [join], [replace]), on byte strings;
    - [Number]: the arithmetic the scoring functions need, as an interface
      with three instances.  [binary64] and [binary64_compensated] are the
      IEEE 754 doubles CPython computes with (Rocq's primitive floats),
      with the built-in [sum] as it accumulates up to CPython 3.11 (left
      to right) and from 3.12 on (with Neumaier's compensation).  [exact]
      reads the same code over the rationals: statements about all inputs
      that need arithmetic reasoning are proved there, statements about
      particular inputs are evaluated in binary64;
    - the dataset rows as [load_dataset] produces them, [safe_split],
      [find_profile], [performance_level], [compute_skill_fit],
      [build_career_weights];
    - the routes [login], [ask], [download_plan] and [root] as functions
      that pass the session store of the module ([SESSIONS]) explicitly;
    - the vocabulary of the specification, and the theorems.

    Modelling conventions.  A Python [str] is a [string] of bytes (UTF-8):
    [lower] acts on the ASCII letters and [strip] on the ASCII white space,
    which is what Python does on ASCII text.  The dataset [DATA] is an
    argument of the functions that read it.  A request body is either not
    JSON at all ([None]) or a JSON object whose fields of interest are
    absent or strings, as the routes document them.  [uuid.uuid4()] is the
    identifier handed to the route as its argument [fresh].  The two
    built-ins that turn floats into text and text into floats ([repr] and
    [float]) are arguments of the model, see [builtins]. *)

From Stdlib Require Import ZArith QArith Floats String Ascii List Bool Lia Lqa.
From stdpp Require Import gmap strings list pretty.

Set Warnings "-inexact-float".

(** ** Python strings *)

Module PyStr.

(** [str.isspace] on the ASCII range: TAB..CR, FS..US and the space. *)
Definition is_space (c : ascii) : bool :=
  let n := nat_of_ascii c in
  ((9 <=? n)%nat && (n <=? 13)%nat) || ((28 <=? n)%nat && (n <=? 32)%nat).

Definition lower_ascii (c : ascii) : ascii :=
  let n := nat_of_ascii c in
  if ((65 <=? n)%nat && (n <=? 90)%nat) then ascii_of_nat (n + 32) else c.

(** [s.lower()] *)
Fixpoint lower (s : string) : string :=
  match s with
  | EmptyString => EmptyString
  | String c s' => String (lower_ascii c) (lower s')
  end.

(** [s.lstrip()] *)
Fixpoint lstrip (s : string) : string :=
  match s with
  | EmptyString => EmptyString
  | String c s' => if is_space c then lstrip s' else s
  end.

(** [s.rstrip()] *)
Fixpoint rstrip (s : string) : string :=
  match s with
  | EmptyString => EmptyString
  | String c s' =>
      match rstrip s' with
      | EmptyString => if is_space c then EmptyString else String c EmptyString
      | r => String c r
      end
  end.

(** [s.strip()] *)
Definition strip (s : string) : string := rstrip (lstrip s).

(** [s.startswith(sub)] *)
Fixpoint starts_with (sub s : string) : bool :=
  match sub, s with
  | EmptyString, _ => true
  | String _ _, EmptyString => false
  | String a sub', String b s' => Ascii.eqb a b && starts_with sub' s'
  end.

(** [sub in s]: [sub] starts at some position of [s]. *)
Fixpoint contains (sub s : string) : bool :=
  starts_with sub s ||
  match s with
  | EmptyString => false
  | String _ s' => contains sub s'
  end.

(** [s.split(sep)] for a separator of one character: the pieces between
    the separators, empty ones included. *)
Fixpoint split_on (sep : ascii) (s : string) : list string :=
  match s with
  | EmptyString => [EmptyString]
  | String c s' =>
      if Ascii.eqb c sep then EmptyString :: split_on sep s'
      else match split_on sep s' with
           | [] => [String c EmptyString]
           | w :: ws => String c w :: ws
           end
  end.

(** [s.split()]: the maximal runs of characters that are not white space.
    [cur] is the run being read. *)
Fixpoint split_ws_go (cur : string) (s : string) : list string :=
  match s with
  | EmptyString => if String.eqb cur EmptyString then [] else [cur]
  | String c s' =>
      if is_space c
      then (if String.eqb cur EmptyString then split_ws_go EmptyString s'
            else cur :: split_ws_go EmptyString s')
      else split_ws_go (String.append cur (String c EmptyString)) s'
  end.

Definition split_ws (s : string) : list string := split_ws_go EmptyString s.

(** [sep.join(l)] *)
Fixpoint join (sep : string) (l : list string) : string :=
  match l with
  | [] => EmptyString
  | [x] => x
  | x :: l' => String.append x (String.append sep (join sep l'))
  end.

(** [s.replace(a, b)] for single characters. *)
Fixpoint replace_char (a b : ascii) (s : string) : string :=
  match s with
  | EmptyString => EmptyString
  | String c s' => String (if Ascii.eqb c a then b else c) (replace_char a b s')
  end.

(** [not s] *)
Definition is_empty (s : string) : bool := String.eqb s EmptyString.

End PyStr.

Open Scope string_scope.
Open Scope list_scope.

(** ** Numbers

    The scoring functions use [+ - * /], comparisons, [round(x, 1)] and
    the built-in [sum].  [Number] lists them, so that one definition of
    each function can be read over the doubles CPython computes with and
    over the rationals. *)

Class Number (F : Type) : Type := {
  num_lit : Z -> F;              (* an integral literal: 0.0, 10.0, 85 ... *)
  num_add : F -> F -> F;
  num_sub : F -> F -> F;
  num_mul : F -> F -> F;
  num_div : F -> F -> F;
  num_le : F -> F -> bool;       (* x <= y *)
  num_eq : F -> F -> bool;       (* x == y *)
  num_isna : F -> bool;          (* pd.isna(x) on a number *)
  num_round1 : F -> F;           (* round(x, 1) *)
  num_sum : list F -> F          (* sum(l) *)
}.

(** Round the rational [n / d] ([0 < d]) to the nearest integer, ties to
    the even one: the rule of Python's [round]. *)
Definition round_half_even (n d : Z) : Z :=
  let q := (n / d)%Z in
  let r := (n mod d)%Z in
  match (2 * r ?= d)%Z with
  | Lt => q
  | Gt => (q + 1)%Z
  | Eq => if Z.even q then q else (q + 1)%Z
  end.

Module Binary64.

(** [float(z)] for an integer of absolute value below [2^63]. *)
Definition of_Z (z : Z) : float :=
  match z with
  | Z0 => PrimFloat.zero
  | Zpos _ => PrimFloat.of_uint63 (Uint63.of_Z z)
  | Zneg p => PrimFloat.opp (PrimFloat.of_uint63 (Uint63.of_Z (Zpos p)))
  end.

(** [round(x, 1)].  CPython converts [x] to the decimal with one digit
    after the point that is nearest to the exact value of the double (ties
    to even), and reads that decimal back as the nearest double.  With
    [x = m * 2^e] exactly, [t] is the rounded number of tenths, and
    [SFdiv] is the correctly rounded quotient [t / 10].  Infinities and
    NaN round to themselves. *)
Definition round1 (x : float) : float :=
  match Prim2SF x with
  | S754_finite s m e =>
      let t := if (0 <=? e)%Z then (10 * Zpos m * 2 ^ e)%Z
               else round_half_even (10 * Zpos m) (2 ^ (- e)) in
      match t with
      | Zpos p => SF2Prim (SFdiv prec emax (S754_finite s p 0) (S754_finite false 10 0))
      | _ => SF2Prim (S754_zero s)
      end
  | _ => x
  end.

(** [sum(l)] up to CPython 3.11: the items are added one by one to the
    integer 0. *)
Definition sum_left (l : list float) : float :=
  fold_left PrimFloat.add l (of_Z 0).

(** [sum(l)] from CPython 3.12 on: once the running total is a float,
    the rounding error of every addition is collected in [c] (Neumaier's
    variant of Kahan summation) and added at the end, unless it is zero
    or not finite. *)
Fixpoint sum_neumaier (l : list float) (total c : float) : float :=
  match l with
  | [] =>
      if PrimFloat.eqb c 0 || PrimFloat.is_nan c || PrimFloat.is_infinity c
      then total else PrimFloat.add total c
  | x :: l' =>
      let t := PrimFloat.add total x in
      let c' :=
        if PrimFloat.leb (PrimFloat.abs x) (PrimFloat.abs total)
        then PrimFloat.add c (PrimFloat.add (PrimFloat.sub total t) x)
        else PrimFloat.add c (PrimFloat.add (PrimFloat.sub x t) total) in
      sum_neumaier l' t c'
  end.

Definition sum_compensated (l : list float) : float :=
  match l with
  | [] => of_Z 0
  | x :: l' => sum_neumaier l' (PrimFloat.add (of_Z 0) x) 0
  end.

End Binary64.

Definition binary64 : Number float := {|
  num_lit := Binary64.of_Z;
  num_add := PrimFloat.add;
  num_sub := PrimFloat.sub;
  num_mul := PrimFloat.mul;
  num_div := PrimFloat.div;
  num_le := PrimFloat.leb;
  num_eq := PrimFloat.eqb;
  num_isna := PrimFloat.is_nan;
  num_round1 := Binary64.round1;
  num_sum := Binary64.sum_left
|}.

Definition binary64_compensated : Number float := {|
  num_lit := Binary64.of_Z;
  num_add := PrimFloat.add;
  num_sub := PrimFloat.sub;
  num_mul := PrimFloat.mul;
  num_div := PrimFloat.div;
  num_le := PrimFloat.leb;
  num_eq := PrimFloat.eqb;
  num_isna := PrimFloat.is_nan;
  num_round1 := Binary64.round1;
  num_sum := Binary64.sum_compensated
|}.

Module Exact.

(** [round(x, 1)] on a rational: the nearest multiple of one tenth, ties
    to the even one. *)
Definition round1 (x : Q) : Q :=
  Qmake (round_half_even (10 * Qnum x) (Zpos (Qden x))) 10.

Definition sum (l : list Q) : Q := fold_left Qplus l (inject_Z 0).

End Exact.

Definition exact : Number Q := {|
  num_lit := inject_Z;
  num_add := Qplus;
  num_sub := Qminus;
  num_mul := Qmult;
  num_div := Qdiv;
  num_le := Qle_bool;
  num_eq := Qeq_bool;
  num_isna := fun _ => false;
  num_round1 := Exact.round1;
  num_sum := Exact.sum
|}.

(** ** The dataset

    [load_dataset] reads the file with [dtype=str] and then makes the
    columns GPA, 10th_Marks and 12th_Marks numeric.  A cell of a text
    column is therefore a string or, when the field is empty, the float
    NaN; a cell of a numeric column is an integer or a float (NaN when
    the field is empty or is no number).  A column the file does not have
    is [None] here, and [row.get(col, default)] falls back on its default
    for it. *)

Inductive cell : Type :=
| NaN
| Str (s : string).

Inductive number : Type :=
| Int (z : Z)
| Float (x : float).

Record row : Type := {
  Student_ID : option cell;
  Name : option cell;
  GPA : option number;
  Marks_10th : option number;          (* column 10th_Marks *)
  Marks_12th : option number;          (* column 12th_Marks *)
  Marks_10th_alt : option cell;        (* column 10th Marks, left as text *)
  Marks_12th_alt : option cell;        (* column 12th Marks, left as text *)
  Skills : option cell;
  Interested_Domain : option cell;
  Career_Suggestions : option cell;
  Internships : option cell;
  Certifications : option cell
}.

(** [row.get(col, d)] for a text column and a string default [d]. *)
Definition row_get (c : option cell) (d : string) : cell :=
  match c with
  | Some v => v
  | None => Str d
  end.

(** [v or d]: NaN is a float other than zero, hence true; a string is
    true unless it is empty. *)
Definition cell_or (v : cell) (d : string) : cell :=
  match v with
  | NaN => NaN
  | Str s => if PyStr.is_empty s then Str d else Str s
  end.

(** [str(v)] *)
Definition py_str (v : cell) : string :=
  match v with
  | NaN => "nan"
  | Str s => s
  end.

Definition DOMAIN_SKILL_MAP : gmap string (list string) :=
  list_to_map
    [ ("AI", ["Python"; "Machine Learning"; "Deep Learning"; "Statistics";
              "TensorFlow"; "PyTorch"]);
      ("Data", ["SQL"; "Excel"; "Power BI"; "Tableau"; "Pandas"; "NumPy";
                "Statistics"]);
      ("Cybersecurity", ["Linux"; "Networking"; "Ethical Hacking"; "Firewalls";
                         "Cryptography"]);
      ("Web Development", ["HTML"; "CSS"; "JavaScript"; "React"; "Node.js"]) ].

(** The loop [for sep in [";", ","]] of [safe_split], on a string. *)
Fixpoint safe_split_seps (seps : list ascii) (s : string) : list string :=
  match seps with
  | [] => [PyStr.strip s]
  | sep :: seps' =>
      if PyStr.contains (String sep EmptyString) s
      then map PyStr.strip
             (List.filter (fun p => negb (PyStr.is_empty (PyStr.strip p)))
                          (PyStr.split_on sep s))
      else safe_split_seps seps' s
  end.

(** [safe_split(s)]: NaN is caught by [pd.isna(s)]. *)
Definition safe_split (s : cell) : list string :=
  match s with
  | NaN => []
  | Str s => safe_split_seps [";"%char; ","%char] s
  end.

(** The inner loop of [find_profile]: does some skill occur in [q]? *)
Fixpoint skill_in_query (q : string) (skills : list string) : bool :=
  match skills with
  | [] => false
  | sk :: skills' =>
      if PyStr.contains (PyStr.lower (PyStr.strip sk)) q then true
      else skill_in_query q skills'
  end.

(** The loop [for _, row in DATA.iterrows()] of [find_profile].  The
    variable [skills] of the source (the joined skills) is never read and
    is left out. *)
Fixpoint find_profile_rows (q : string) (rows : list row) : option row :=
  match rows with
  | [] => None
  | r :: rows' =>
      let sid := PyStr.lower (PyStr.strip (py_str (cell_or (row_get (Student_ID r) "") ""))) in
      let name := PyStr.lower (PyStr.strip (py_str (cell_or (row_get (Name r) "") ""))) in
      let domain :=
        PyStr.lower (PyStr.strip (py_str (cell_or (row_get (Interested_Domain r) "") ""))) in
      if String.eqb q sid || String.eqb q name || PyStr.contains q name
         || String.eqb q domain
      then Some r
      else if skill_in_query q (safe_split (cell_or (row_get (Skills r) "") ""))
      then Some r
      else find_profile_rows q rows'
  end.

Definition find_profile (DATA : list row) (query : string) : option row :=
  let q := PyStr.lower (PyStr.strip query) in
  find_profile_rows q DATA.

(** ** Scoring *)

Section Scoring.
Context {F : Type} {num : Number F}.

(** One [try] block of [performance_level]: [x] counts unless it is
    missing ([None] or NaN). *)
Definition add_component (score : F) (x : option F) (full weight : Z) : F :=
  match x with
  | None => score
  | Some v =>
      if num_isna v then score
      else num_add score (num_mul (num_div v (num_lit full)) (num_lit weight))
  end.

Definition performance_level (gpa m10 m12 : option F) : string * F :=
  let score := num_lit 0 in
  let score := add_component score gpa 10 50 in
  let score := add_component score m10 100 25 in
  let score := add_component score m12 100 25 in
  let level :=
    if num_le (num_lit 85) score then "Excellent"
    else if num_le (num_lit 70) score then "Good"
    else "Needs Improvement" in
  (level, num_round1 score).

Record career_weight : Type := { career : string; weight : F }.

(** The weights [build_career_weights] computes for [n >= 1] careers.
    [weights[-1] += diff] updates the last position of the list. *)
Definition career_weights (n : nat) : list F :=
  let even := num_round1 (num_div (num_lit 100) (num_lit (Z.of_nat n))) in
  let weights := repeat even n in
  let diff := num_round1 (num_sub (num_lit 100) (num_sum weights)) in
  if negb (num_eq diff (num_lit 0))
  then match weights !! (n - 1)%nat with
       | Some w => <[(n - 1)%nat := num_add w diff]> weights
       | None => weights
       end
  else weights.

Definition build_career_weights (profile_row : row) : list career_weight :=
  let careers :=
    safe_split (Str (py_str (cell_or (row_get (Career_Suggestions profile_row) "") ""))) in
  match careers with
  | [] => []
  | _ :: _ =>
      zip_with (fun c w => {| career := c; weight := w |})
               careers (career_weights (length careers))
  end.

End Scoring.

Arguments career_weight F : clear implicits.

Definition compute_skill_fit (skills_list : list string) (domain : string)
  : list string * list Z :=
  let reqs := default [] (DOMAIN_SKILL_MAP !! domain) in
  let skills_lower := map PyStr.lower skills_list in
  let values :=
    map (fun r =>
           if existsb (String.eqb (PyStr.lower r)) skills_lower then 100%Z
           else
             let matched :=
               existsb (fun sk =>
                          existsb (fun r_part => PyStr.contains (PyStr.lower r_part) sk)
                                  (PyStr.split_ws r))
                       skills_lower in
             if matched then 60%Z else 20%Z)
        reqs in
  (reqs, values).

(** ** Routes *)

(** The built-ins of Python the model does not define: the text of a
    float that is not NaN ([str(x)], also inside an f-string), and the
    float a text denotes ([float(s)], [None] when it raises). *)
Record builtins : Type := {
  float_repr : float -> string;
  float_of_str : string -> option float
}.

(** What a route does: raise an [HTTPException] or return a value. *)
Inductive result (A : Type) : Type :=
| HTTPException (status_code : Z) (detail : string)
| Return (a : A).

Arguments HTTPException {A} status_code detail.
Arguments Return {A} a.

Record message : Type := { sender : string; msg : string }.

Record session : Type := { history : list message; user : string }.

(** The module's [SESSIONS] dictionary. *)
Abbreviation sessions := (gmap string session).

Definition USERS : gmap string string :=
  list_to_map [ ("kirubha", "12345"); ("admin", "admin123") ].

Definition new_session (who : string) : session :=
  {| history := []; user := who |}.

(** [s["history"].append({"sender": who, "msg": text})] *)
Definition push_message (who text : string) (s : session) : session :=
  {| history := history s ++ [ {| sender := who; msg := text |} ];
     user := user s |}.

(** [SESSIONS[sid]["history"].append({"sender": who, "msg": text})], for
    an identifier that is in the store (every call follows a [setdefault]
    or an assignment of that identifier). *)
Definition append_history (sid who text : string) (SESSIONS : sessions) : sessions :=
  alter (push_message who text) sid SESSIONS.

(** [SESSIONS.setdefault(sid, {"history": [], "user": "guest"})] *)
Definition setdefault_guest (sid : string) (SESSIONS : sessions) : sessions :=
  match SESSIONS !! sid with
  | Some _ => SESSIONS
  | None => <[sid := new_session "guest"]> SESSIONS
  end.

(** *** POST /login *)

Record login_body : Type := {
  username : option string;
  password : option string
}.

Record login_response : Type := {
  status : string;
  login_session_id : option string;
  login_message : string
}.

Definition login (fresh : string) (body : option login_body) (SESSIONS : sessions)
  : login_response * sessions :=
  let data := match body with
              | Some d => d
              | None => {| username := None; password := None |}
              end in
  let username := default "" (username data) in
  let password := default "" (password data) in
  if PyStr.is_empty username || PyStr.is_empty password then
    let sid := fresh in
    ({| status := "guest"; login_session_id := Some sid;
        login_message := "Guest session started" |},
     <[sid := new_session "guest"]> SESSIONS)
  else if match USERS !! username with
          | Some p => String.eqb p password
          | None => false
          end then
    ({| status := "ok"; login_session_id := Some username;
        login_message := "Welcome " +:+ username |},
     <[username := new_session username]> SESSIONS)
  else
    ({| status := "error"; login_session_id := None;
        login_message := "Invalid credentials" |},
     SESSIONS).

(** *** POST /ask *)

Record roadmap_step : Type := { step : string; desc : string }.

Definition roadmaps : gmap string (list roadmap_step) :=
  list_to_map
    [ ("AI",
       [ {| step := "Learn Python + ML basics";
            desc := "Cover Python, statistics, and ML frameworks" |};
         {| step := "Deep Learning Projects"; desc := "Work on CNN, NLP projects" |};
         {| step := "Internship in AI/ML";
            desc := "Apply AI concepts in real-world tasks" |};
         {| step := "Certifications"; desc := "TensorFlow, AWS ML Specialty" |};
         {| step := "Placement Prep"; desc := "Mock interviews + case studies" |} ]);
      ("Cybersecurity",
       [ {| step := "Networking + OS Fundamentals";
            desc := "Linux, Windows security basics" |};
         {| step := "Hands-on Projects";
            desc := "Firewalls, intrusion detection labs" |};
         {| step := "Internship in Security"; desc := "SOC or PenTest roles" |};
         {| step := "Certifications"; desc := "CEH, CompTIA Security+" |};
         {| step := "Placement Prep"; desc := "CTF challenges, resume building" |} ]);
      ("Data",
       [ {| step := "Excel + SQL Mastery";
            desc := "Learn query optimization & reporting" |};
         {| step := "Visualization Projects";
            desc := "Power BI / Tableau dashboards" |};
         {| step := "Internship in Data Analytics";
            desc := "Business Analyst or Data Analyst roles" |};
         {| step := "Certifications";
            desc := "Google Data Analytics, Power BI Cert" |};
         {| step := "Placement Prep";
            desc := "Case study solving, mock interviews" |} ]);
      ("Web Development",
       [ {| step := "Frontend Skills"; desc := "Master HTML, CSS, JavaScript" |};
         {| step := "Backend Basics"; desc := "Learn Node.js, FastAPI, or Django" |};
         {| step := "Internship in Web Dev";
            desc := "Work as a frontend or full-stack intern" |};
         {| step := "Certifications"; desc := "ReactJS, AWS Developer" |};
         {| step := "Placement Prep";
            desc := "LeetCode practice, mock interviews" |} ]) ].

Definition default_internships : gmap string (list string) :=
  list_to_map
    [ ("AI", ["AI Intern at Google"; "ML Intern at TCS"]);
      ("Cybersecurity", ["SOC Analyst Intern"; "Network Security Intern"]);
      ("Data", ["Analytics Intern at Deloitte"; "BI Developer Intern at Infosys"]);
      ("Web Development", ["Frontend Intern at Startup"; "Full-Stack Intern at Wipro"]) ].

Definition default_certifications : gmap string (list string) :=
  list_to_map
    [ ("AI", ["AWS ML Specialty"; "TensorFlow Developer"]);
      ("Cybersecurity", ["CEH"; "CompTIA Security+"]);
      ("Data", ["Google Data Analytics"; "Power BI Certification"]);
      ("Web Development", ["ReactJS Certification"; "AWS Developer Associate"]) ].

Record ask_body : Type := {
  query : option string;
  session_id : option string
}.

Record insights_object : Type := {
  i_student_id : string;
  i_name : string;
  i_gpa : option float;
  i_marks : option float * option float;             (* "10th", "12th" *)
  i_skills : list string;
  i_domain : string;
  i_career_suggestions : list (career_weight float);
  i_internships : list string;
  i_certifications : list string;
  i_performance : string * float;                    (* level, score *)
  i_radar : list string * list Z;                    (* labels, values *)
  i_summary_text : string;
  i_roadmap : list roadmap_step
}.

(** The dictionary [ask] returns: a key that is missing is [None]. *)
Record ask_response : Type := {
  answer : string;
  insights : option insights_object;
  response_session_id : option string
}.

(** [float(v) if not pd.isna(v) else None] on a numeric cell, [None] for
    a column that is missing. *)
Definition number_to_float (v : option number) : option float :=
  match v with
  | None => None
  | Some (Int z) => Some (Binary64.of_Z z)
  | Some (Float x) => if PrimFloat.is_nan x then None else Some x
  end.

(** The marks: [profile.get("10th_Marks", profile.get("10th Marks", None))]
    and the conversion that follows it, inside [try]. *)
Definition marks_to_float (py : builtins) (v : option number) (alt : option cell)
  : option float :=
  match v with
  | Some _ => number_to_float v
  | None =>
      match alt with
      | None => None
      | Some NaN => None
      | Some (Str s) => float_of_str py s
      end
  end.

(** [l1 or l2] on lists. *)
Definition list_or {A : Type} (l1 l2 : list A) : list A :=
  match l1 with
  | [] => l2
  | _ :: _ => l1
  end.

Definition empty_query_answer : string :=
  "Please send a Student ID, Name, or skill.".

Definition not_found_answer : string :=
  "I couldn’t find your profile. Please tell me your Student ID, Name, or Skills.".

(** The part of [ask] that follows a match, from [student_id = ...] to
    the [insights] dictionary; the summary is its [summary_text]. *)
Definition insights_of (py : builtins) (num : Number float) (profile : row)
  : insights_object :=
  let student_id := py_str (cell_or (row_get (Student_ID profile) "") "") in
  let name := py_str (cell_or (row_get (Name profile) "") "") in
  let gpa := number_to_float (GPA profile) in
  let m10 := marks_to_float py (Marks_10th profile) (Marks_10th_alt profile) in
  let m12 := marks_to_float py (Marks_12th profile) (Marks_12th_alt profile) in
  let skills := safe_split (Str (py_str (cell_or (row_get (Skills profile) "") ""))) in
  let domain := py_str (cell_or (row_get (Interested_Domain profile) "") "") in
  let careers := build_career_weights (num := num) profile in
  let internships :=
    safe_split (Str (py_str (cell_or (row_get (Internships profile) "") ""))) in
  let certifications :=
    safe_split (Str (py_str (cell_or (row_get (Certifications profile) "") ""))) in
  let '(level, perf_score) := performance_level (num := num) gpa m10 m12 in
  let '(radar_labels, radar_values) := compute_skill_fit skills domain in
  let top_careers :=
    match careers with
    | [] => "some options"
    | _ :: _ => PyStr.join ", " (map career (take 3 careers))
    end in
  let summary :=
    "Hi " +:+ name +:+ ". Based on your profile (G P A "
    +:+ match gpa with Some x => float_repr py x | None => "None" end
    +:+ "), top suggested careers include: " +:+ top_careers
    +:+ ". Your performance level is " +:+ level +:+ "." in
  let selected_roadmap :=
    default (default [] (roadmaps !! "Data")) (roadmaps !! domain) in
  let internships :=
    list_or internships (default [] (default_internships !! domain)) in
  let certifications :=
    list_or certifications (default [] (default_certifications !! domain)) in
  {| i_student_id := student_id;
     i_name := name;
     i_gpa := gpa;
     i_marks := (m10, m12);
     i_skills := skills;
     i_domain := domain;
     i_career_suggestions := careers;
     i_internships := internships;
     i_certifications := certifications;
     i_performance := (level, perf_score);
     i_radar := (radar_labels, radar_values);
     i_summary_text := summary;
     i_roadmap := selected_roadmap |}.

Definition ask (py : builtins) (num : Number float) (DATA : list row)
    (fresh : string) (body : option ask_body) (SESSIONS : sessions)
  : result ask_response * sessions :=
  match body with
  | None => (HTTPException 400 "Invalid JSON", SESSIONS)
  | Some data =>
      let query := PyStr.strip (default "" (query data)) in
      let '(session_id, SESSIONS) :=
        match session_id data with
        | Some s =>
            if PyStr.is_empty s
            then (fresh, <[fresh := new_session "guest"]> SESSIONS)
            else (s, SESSIONS)
        | None => (fresh, <[fresh := new_session "guest"]> SESSIONS)
        end in
      let SESSIONS := setdefault_guest session_id SESSIONS in
      let SESSIONS := append_history session_id "user" query SESSIONS in
      if PyStr.is_empty query then
        (Return {| answer := empty_query_answer; insights := None;
                   response_session_id := None |},
         SESSIONS)
      else
        match find_profile DATA query with
        | None =>
            let message := not_found_answer in
            let SESSIONS := append_history session_id "elix" message SESSIONS in
            (Return {| answer := message; insights := None;
                       response_session_id := None |},
             SESSIONS)
        | Some profile =>
            let insights := insights_of py num profile in
            let summary := i_summary_text insights in
            let SESSIONS := append_history session_id "elix" summary SESSIONS in
            (Return {| answer := summary; insights := Some insights;
                       response_session_id := Some session_id |},
             SESSIONS)
        end
  end.

(** *** GET /download/{student_id} and GET / *)

(** The calls made on the reportlab canvas, in order. *)
Inductive canvas_op : Type :=
| SetFont (font : string) (size : Z)
| DrawString (x y : Z) (text : string)
| ShowPage
| Save.

Record file_response : Type := {
  path : string;
  download_name : option string;
  media_type : option string
}.

(** What a call of [download_plan] leaves behind: the value it returns
    ([None] is Python's [None]), the canvas it opened and the calls made
    on it. *)
Record download_outcome : Type := {
  returned : option file_response;
  canvas_file : string;
  canvas_ops : list canvas_op
}.

(** [str(row.get(col, 'N/A'))] inside an f-string, for a numeric column. *)
Definition number_text (py : builtins) (v : option number) : string :=
  match v with
  | None => "N/A"
  | Some (Int z) => pretty z
  | Some (Float x) => if PrimFloat.is_nan x then "nan" else float_repr py x
  end.

(** One of the three bullet loops: draw an item, move down, and start a
    new page when [y] falls below 80. *)
Fixpoint draw_items (items : list string) (y : Z) (ops : list canvas_op)
  : Z * list canvas_op :=
  match items with
  | [] => (y, ops)
  | item :: items' =>
      let ops := ops ++ [DrawString 60 y ("- " +:+ item)] in
      let y := (y - 16)%Z in
      if (y <? 80)%Z then draw_items items' 750%Z (ops ++ [ShowPage])
      else draw_items items' y ops
  end.

(** The first loop of [download_plan]. *)
Fixpoint find_student (student_id : string) (rows : list row) : option row :=
  match rows with
  | [] => None
  | r :: rows' =>
      if String.eqb (PyStr.strip (py_str (cell_or (row_get (Student_ID r) "") "")))
                    (PyStr.strip student_id)
      then Some r
      else find_student student_id rows'
  end.

(** [download_plan] ends with its third bullet loop: the function body has
    no [c.save()] and no [return], so the call returns [None]. *)
Definition download_plan (py : builtins) (DATA : list row) (student_id : string)
  : result download_outcome :=
  match find_student student_id DATA with
  | None => HTTPException 404 "Student not found"
  | Some r =>
      let name := py_str (cell_or (row_get (Name r) "") "Student") in
      let careers :=
        safe_split (Str (py_str (cell_or (row_get (Career_Suggestions r) "") ""))) in
      let certifications :=
        safe_split (Str (py_str (cell_or (row_get (Certifications r) "") ""))) in
      let internships :=
        safe_split (Str (py_str (cell_or (row_get (Internships r) "") ""))) in
      let filename := PyStr.replace_char " " "_" name +:+ "_career_plan.pdf" in
      let ops :=
        [ SetFont "Helvetica-Bold" 16;
          DrawString 40 750
            ("Career Plan — " +:+ name +:+ " (ID: " +:+ student_id +:+ ")");
          SetFont "Helvetica" 12 ] in
      let y := 720%Z in
      let ops := ops ++ [DrawString 40 y ("GPA: " +:+ number_text py (GPA r))] in
      let y := (y - 20)%Z in
      let ops :=
        ops ++ [DrawString 40 y
                  ("10th Marks: " +:+ number_text py (Marks_10th r)
                   +:+ ", 12th Marks: " +:+ number_text py (Marks_12th r))] in
      let y := (y - 30)%Z in
      let ops := ops ++ [SetFont "Helvetica-Bold" 13;
                         DrawString 40 y "Career Suggestions:"] in
      let y := (y - 18)%Z in
      let ops := ops ++ [SetFont "Helvetica" 12] in
      let '(y, ops) := draw_items careers y ops in
      let y := (y - 10)%Z in
      let ops := ops ++ [SetFont "Helvetica-Bold" 13;
                         DrawString 40 y "Certifications:"] in
      let y := (y - 18)%Z in
      let ops := ops ++ [SetFont "Helvetica" 12] in
      let '(y, ops) := draw_items certifications y ops in
      let y := (y - 10)%Z in
      let ops := ops ++ [SetFont "Helvetica-Bold" 13;
                         DrawString 40 y "Internships / Experience:"] in
      let y := (y - 18)%Z in
      let ops := ops ++ [SetFont "Helvetica" 12] in
      let '(y, ops) := draw_items internships y ops in
      Return {| returned := None; canvas_file := filename; canvas_ops := ops |}
  end.

(** [root] returns the front page; the two statements after its [return]
    ([c.save()] and the [FileResponse] of the plan) are never run. *)
Definition root : file_response :=
  {| path := "static/index.html"; download_name := None; media_type := None |}.

(** ** The sample dataset

    The three rows [load_dataset] writes when the dataset file does not
    exist, as they come back from [read_csv]: the identifiers are text,
    GPA is a float column and the marks are integer columns. *)

Definition sample_row (sid name : string) (gpa : float) (m10 m12 : Z)
    (skills domain careers internships certifications : string) : row :=
  {| Student_ID := Some (Str sid);
     Name := Some (Str name);
     GPA := Some (Float gpa);
     Marks_10th := Some (Int m10);
     Marks_12th := Some (Int m12);
     Marks_10th_alt := None;
     Marks_12th_alt := None;
     Skills := Some (Str skills);
     Interested_Domain := Some (Str domain);
     Career_Suggestions := Some (Str careers);
     Internships := Some (Str internships);
     Certifications := Some (Str certifications) |}.

Definition sample_dataset : list row :=
  [ sample_row "1001" "Aishwarya Iyer" 9.06 95 92
      "Excel;Power BI;NumPy;JavaScript;SQL" "Data"
      "Data Analyst;Business Analyst;Data Scientist;BI Developer"
      "Analytics Intern at X;BI Intern at Y" "Power BI Cert;Excel Advanced";
    sample_row "1002" "Aarav Kumar" 8.2 88 86
      "Python;Machine Learning;SQL" "AI"
      "ML Engineer;Data Scientist;AI Researcher;MLOps Engineer"
      "ML Intern at Z" "ML Nanodegree;Python Cert";
    sample_row "1003" "Priya Sharma" 7.8 85 83
      "Java;Networks;Security" "Cybersecurity"
      "Security Engineer;SOC Analyst;Penetration Tester;Security Consultant"
      "Security Intern at Q" "CEH;Network+" ].

(** A stand-in for the two float built-ins, for evaluating the routes on
    inputs where the text of a float is of no interest. *)
Definition plain_builtins : builtins :=
  {| float_repr := fun _ => "<float>"; float_of_str := fun _ => None |}.

(** ** The vocabulary of the specification

    The definitions below follow the words of the specification, not the
    code; the theorems compare the two. *)

(** [a] is a substring of [b]. *)
Definition substring_of (a b : string) : Prop :=
  exists pre post : string, b = pre +:+ a +:+ post.

(** Every character of [s] satisfies [P]. *)
Fixpoint string_forall (P : ascii -> bool) (s : string) : bool :=
  match s with
  | EmptyString => true
  | String c s' => P c && string_forall P s'
  end.

(** A token: a string that is not empty and has no white space in it. *)
Definition is_token (tok : string) : Prop :=
  tok <> "" /\ string_forall (fun c => negb (PyStr.is_space c)) tok = true.

(** A record's identifier, name and domain as the resolver compares them
    (trimmed, lower case), and its skills.  The resolver compares
    [str(cell or "")]: for a cell that is empty in the dataset this is the
    text "nan". *)
Definition normalized (c : option cell) : string :=
  PyStr.lower (PyStr.strip (py_str (cell_or (row_get c "") ""))).

Definition record_id (r : row) : string := normalized (Student_ID r).
Definition record_name (r : row) : string := normalized (Name r).
Definition record_domain (r : row) : string := normalized (Interested_Domain r).

Definition record_skills (r : row) : list string :=
  map (fun sk => PyStr.lower (PyStr.strip sk))
      (safe_split (cell_or (row_get (Skills r) "") "")).


(** The conditions [find_profile] tests: of the three substring tests of
    condition 3 only "the record's name contains the query" is there. *)
Definition resolves (q : string) (r : row) : Prop :=
  q = record_id r
  \/ q = record_name r
  \/ substring_of q (record_name r)
  \/ q = record_domain r
  \/ (exists sk, sk ∈ record_skills r /\ substring_of sk q).


(** The three grades of the skill fit. *)
Definition present_verbatim (skills : list string) (r : string) : Prop :=
  exists s, s ∈ skills /\ PyStr.lower s = PyStr.lower r.

Definition token_overlap (skills : list string) (r : string) : Prop :=
  exists tok s, tok ∈ PyStr.split_ws r /\ s ∈ skills
                /\ substring_of (PyStr.lower tok) (PyStr.lower s).

Definition skill_value (skills : list string) (r : string) (v : Z) : Prop :=
  (present_verbatim skills r /\ v = 100%Z)
  \/ (~ present_verbatim skills r /\ token_overlap skills r /\ v = 60%Z)
  \/ (~ present_verbatim skills r /\ ~ token_overlap skills r /\ v = 20%Z).

(** The fields of a login request: an unparsable body has none. *)
Definition body_username (body : option login_body) : option string :=
  body ≫= username.

Definition body_password (body : option login_body) : option string :=
  body ≫= password.

Definition field_empty (f : option string) : Prop := f = None \/ f = Some "".

Definition credentials_match (body : option login_body) : Prop :=
  exists u p, body_username body = Some u /\ body_password body = Some p
              /\ USERS !! u = Some p.

Definition both_fields_empty (body : option login_body) : Prop :=
  field_empty (body_username body) /\ field_empty (body_password body).

Definition some_field_empty (body : option login_body) : Prop :=
  field_empty (body_username body) \/ field_empty (body_password body).

(** The session a call of /ask works on: the one the request names, or
    the new identifier when it names none. *)
Definition effective_session_id (fresh : string) (data : ask_body) : string :=
  match session_id data with
  | Some s => if PyStr.is_empty s then fresh else s
  | None => fresh
  end.

(** The session as /ask finds it: the stored one when the request names
    a known session, a new guest session otherwise. *)
Definition prior_session (data : ask_body) (SESSIONS : sessions) : session :=
  match session_id data with
  | Some s =>
      if PyStr.is_empty s then new_session "guest"
      else default (new_session "guest") (SESSIONS !! s)
  | None => new_session "guest"
  end.

Definition sent_query (data : ask_body) : string :=
  PyStr.strip (default "" (query data)).







(** The careers of a record as [build_career_weights] splits them. *)
Definition careers_of (r : row) : list string :=
  safe_split (Str (py_str (cell_or (row_get (Career_Suggestions r) "") ""))).

(** The equal share and the rounding remainder of [n] careers. *)
Definition even_share {F : Type} {num : Number F} (n : nat) : F :=
  num_round1 (num_div (num_lit 100) (num_lit (Z.of_nat n))).

Definition rounding_remainder {F : Type} {num : Number F} (n : nat) : F :=
  num_round1 (num_sub (num_lit 100) (num_sum (repeat (even_share n) n))).

(** The last weight: the equal share, plus the remainder when there is one. *)
Definition last_weight {F : Type} {num : Number F} (n : nat) : F :=
  if num_eq (rounding_remainder n) (num_lit 0) then even_share n
  else num_add (even_share n) (rounding_remainder n).

(** The exact value of a finite double. *)
Definition exact_value (x : float) : Q :=
  match Prim2SF x with
  | S754_finite s m e =>
      let z := if s then Zneg m else Zpos m in
      if (0 <=? e)%Z then inject_Z (z * 2 ^ e) else Qmake z (Z.to_pos (2 ^ (- e)))
  | _ => 0%Q
  end.

(** A record with twelve career suggestions. *)
Definition twelve_careers : row :=
  sample_row "3001" "Twelve Careers" 8 80 80 "Python" "AI"
    "C1;C2;C3;C4;C5;C6;C7;C8;C9;C10;C11;C12" "Intern" "Cert".

(** A record whose Internships and Certifications fields are empty in the
    dataset file: [read_csv] reads them as NaN. *)
Definition no_internships_listed : row :=
  {| Student_ID := Some (Str "2001");
     Name := Some (Str "Meera Nair");
     GPA := Some (Float 8);
     Marks_10th := Some (Int 90);
     Marks_12th := Some (Int 90);
     Marks_10th_alt := None;
     Marks_12th_alt := None;
     Skills := Some (Str "Python");
     Interested_Domain := Some (Str "AI");
     Career_Suggestions := Some (Str "ML Engineer");
     Internships := Some NaN;
     Certifications := Some NaN |}.

(** The character [c] does not occur in [s]. *)
Definition free_of (c : ascii) (s : string) : Prop :=
  string_forall (fun x => negb (Ascii.eqb x c)) s = true.

(** [s] neither starts nor ends with white space. *)
Definition trimmed (s : string) : Prop := PyStr.strip s = s.


(** Every stored message was sent by the user or by elix. *)
Definition known_senders (SESSIONS : sessions) : Prop :=
  forall k s m, SESSIONS !! k = Some s -> m ∈ history s ->
                sender m = "user" \/ sender m = "elix".

(** The texts drawn at the bullet indent (x = 60), in order. *)
Definition bullets (ops : list canvas_op) : list string :=
  omap (fun op => match op with
                  | DrawString x _ text => if (x =? 60)%Z then Some text else None
                  | _ => None
                  end) ops.

(** The heights at which text is drawn, in order. *)
Definition drawn_heights (ops : list canvas_op) : list Z :=
  omap (fun op => match op with
                  | DrawString _ y _ => Some y
                  | _ => None
                  end) ops.

(** The identifier of a record as [download_plan] compares it: trimmed,
    case kept. *)
Definition download_id (r : row) : string :=
  PyStr.strip (py_str (cell_or (row_get (Student_ID r) "") "")).

(** A piece as [safe_split] returns it for a list written with [sep]:
    not empty, trimmed, and without the separator. *)
Definition piece_for (sep : ascii) (p : string) : Prop :=
  p <> "" /\ trimmed p /\ free_of sep p.

(** ** Strings: the operations meet their descriptions *)

Lemma append_cons (c : ascii) (a b : string) :
  String c a +:+ b = String c (a +:+ b).
Proof. reflexivity. Qed.

Lemma append_empty_r (s : string) : s +:+ "" = s.
Proof.
  induction s as [|c s IH]; [reflexivity|]. now rewrite append_cons, IH.
Qed.

Lemma append_assoc (a b c : string) : (a +:+ b) +:+ c = a +:+ (b +:+ c).
Proof.
  induction a as [|x a IH]; [reflexivity|]. now rewrite !append_cons, IH.
Qed.

Lemma starts_with_spec (a s : string) :
  PyStr.starts_with a s = true <-> exists post, s = a +:+ post.
Proof.
  revert s. induction a as [|x a IH]; intros s.
  - split; [intros _; now exists s | reflexivity].
  - destruct s as [|y s]; simpl.
    + split; [discriminate | intros [post Hp]; discriminate].
    + rewrite andb_true_iff, Ascii.eqb_eq, IH. split.
      * intros [-> [post ->]]. now exists post.
      * intros [post Hp]. rewrite append_cons in Hp.
        injection Hp as -> ->. split; [reflexivity | now exists post].
Qed.

Lemma contains_spec (a s : string) :
  PyStr.contains a s = true <-> substring_of a s.
Proof.
  unfold substring_of. induction s as [|y s IH]; simpl.
  - rewrite orb_false_r, starts_with_spec. split.
    + intros [post Hp]. now exists "", post.
    + intros (pre & post & Hp). destruct pre; [|discriminate].
      now exists post.
  - rewrite orb_true_iff, starts_with_spec, IH. split.
    + intros [[post Hp] | (pre & post & Hp)].
      * now exists "", post.
      * exists (String y pre), post. now rewrite append_cons, <- Hp.
    + intros (pre & post & Hp). destruct pre as [|z pre].
      * left. now exists post.
      * right. exists pre, post. rewrite append_cons in Hp. congruence.
Qed.

Lemma string_forall_snoc (P : ascii -> bool) (s : string) (c : ascii) :
  string_forall P (s +:+ String c "") = string_forall P s && P c.
Proof.
  induction s as [|x s IH].
  - simpl. now rewrite andb_true_r.
  - rewrite append_cons. simpl. now rewrite IH, andb_assoc.
Qed.

Lemma split_ws_go_tokens (s cur tok : string) :
  string_forall (fun c => negb (PyStr.is_space c)) cur = true ->
  tok ∈ PyStr.split_ws_go cur s ->
  is_token tok /\ exists pre post, cur +:+ s = pre +:+ tok +:+ post.
Proof.
  revert cur. induction s as [|c s IH]; intros cur Hcur; simpl.
  - destruct (String.eqb cur "") eqn:He; intros Hin; [inversion Hin|].
    apply list_elem_of_singleton in Hin as ->. split.
    + split; [|assumption]. intros ->. discriminate.
    + exists "", "". now rewrite append_empty_r.
  - destruct (PyStr.is_space c) eqn:Hc.
    + destruct (String.eqb cur "") eqn:He.
      * apply String.eqb_eq in He as ->. intros Hin.
        destruct (IH "" eq_refl Hin) as (Ht & pre & post & Hs). split; [assumption|].
        exists (String c pre), post. cbn in Hs. now rewrite append_cons, <- Hs.
      * intros Hin. apply elem_of_cons in Hin as [->|Hin].
        -- split; [split; [intros ->; discriminate | assumption]|].
           now exists "", (String c s).
        -- destruct (IH "" eq_refl Hin) as (Ht & pre & post & Hs). split; [assumption|].
           exists (cur +:+ String c pre), post. cbn in Hs.
           now rewrite append_assoc, append_cons, <- Hs.
    + intros Hin.
      destruct (IH (cur +:+ String c "")) with (2 := Hin) as (Ht & pre & post & Hs).
      { rewrite string_forall_snoc, Hcur, Hc. reflexivity. }
      split; [assumption|]. exists pre, post. rewrite <- Hs.
      now rewrite append_assoc.
Qed.

(** The pieces of [s.split()] are tokens that occur in [s]. *)
Lemma split_ws_tokens (s tok : string) :
  tok ∈ PyStr.split_ws s -> is_token tok /\ substring_of tok s.
Proof.
  intros Hin. destruct (split_ws_go_tokens s "" tok eq_refl Hin) as (Ht & pre & post & Hs).
  split; [assumption|]. now exists pre, post.
Qed.

Lemma string_eqb_true (a b : string) : String.eqb a b = true <-> a = b.
Proof. apply String.eqb_eq. Qed.

(** ** The resolver *)

Lemma skill_in_query_spec (q : string) (skills : list string) :
  skill_in_query q skills = true <->
  exists sk, sk ∈ map (fun sk => PyStr.lower (PyStr.strip sk)) skills /\ substring_of sk q.
Proof.
  induction skills as [|sk skills IH]; simpl.
  - split; [discriminate | intros (sk & Hin & _); inversion Hin].
  - destruct (PyStr.contains (PyStr.lower (PyStr.strip sk)) q) eqn:Hc.
    + split; [intros _ | reflexivity].
      exists (PyStr.lower (PyStr.strip sk)). split; [left | now apply contains_spec].
    + rewrite IH. split.
      * intros (sk' & Hin & Hsub). exists sk'. split; [now right | assumption].
      * intros (sk' & Hin & Hsub). exists sk'. split; [|assumption].
        inversion Hin; subst; [|assumption].
        apply contains_spec in Hsub. congruence.
Qed.

(** The test [find_profile] makes on one row is [resolves]. *)
Lemma row_test_spec (q : string) (r : row) :
  (String.eqb q (record_id r) || String.eqb q (record_name r)
   || PyStr.contains q (record_name r) || String.eqb q (record_domain r)
   || skill_in_query q (safe_split (cell_or (row_get (Skills r) "") ""))) = true
  <-> resolves q r.
Proof.
  unfold resolves. rewrite !orb_true_iff, !string_eqb_true, contains_spec,
    skill_in_query_spec. unfold record_skills. tauto.
Qed.

Lemma find_profile_rows_step (q : string) (r : row) (rows : list row) :
  find_profile_rows q (r :: rows) =
  if (String.eqb q (record_id r) || String.eqb q (record_name r)
      || PyStr.contains q (record_name r) || String.eqb q (record_domain r)
      || skill_in_query q (safe_split (cell_or (row_get (Skills r) "") "")))
  then Some r else find_profile_rows q rows.
Proof.
  simpl. fold (normalized (Student_ID r)) (normalized (Name r))
    (normalized (Interested_Domain r)).
  fold (record_id r) (record_name r) (record_domain r).
  destruct (String.eqb q (record_id r) || String.eqb q (record_name r)
            || PyStr.contains q (record_name r) || String.eqb q (record_domain r));
    simpl; [reflexivity|].
  now destruct (skill_in_query q _).
Qed.


Lemma find_profile_rows_none (q : string) (rows : list row) :
  find_profile_rows q rows = None <-> Forall (fun r => ~ resolves q r) rows.
Proof.
  induction rows as [|r0 rows IH].
  - simpl. split; [constructor | reflexivity].
  - rewrite find_profile_rows_step.
    pose proof (row_test_spec q r0) as Ht.
    destruct (_ || skill_in_query q _) eqn:Hb.
    + split; [discriminate | intros HF]. inversion HF; subst.
      exfalso. apply H1. now apply Ht.
    + rewrite IH. split.
      * intros HF. constructor; [|assumption]. intros Hres. apply Ht in Hres.
        discriminate.
      * intros HF. now inversion HF.
Qed.



(** ** The skill fit *)

Lemma existsb_elem_of {A : Type} (f : A -> bool) (l : list A) :
  existsb f l = true <-> exists x, x ∈ l /\ f x = true.
Proof.
  rewrite existsb_exists. split; intros (x & Hin & Hf); exists x;
    (split; [now apply list_elem_of_In | assumption]).
Qed.

Lemma verbatim_test_spec (skills : list string) (r : string) :
  existsb (String.eqb (PyStr.lower r)) (map PyStr.lower skills) = true
  <-> present_verbatim skills r.
Proof.
  unfold present_verbatim. rewrite existsb_elem_of. split.
  - intros (x & Hin & Heq). apply list_elem_of_fmap in Hin as (s & -> & Hs).
    apply String.eqb_eq in Heq. now exists s.
  - intros (s & Hs & Heq). exists (PyStr.lower s). split.
    + apply list_elem_of_fmap. now exists s.
    + apply String.eqb_eq. now symmetry.
Qed.

Lemma overlap_test_spec (skills : list string) (r : string) :
  existsb (fun sk => existsb (fun r_part => PyStr.contains (PyStr.lower r_part) sk)
                             (PyStr.split_ws r))
          (map PyStr.lower skills) = true
  <-> token_overlap skills r.
Proof.
  unfold token_overlap. rewrite existsb_elem_of. split.
  - intros (sk & Hin & Hex). apply list_elem_of_fmap in Hin as (s & -> & Hs).
    apply existsb_elem_of in Hex as (tok & Htok & Hc).
    exists tok, s. repeat split; [assumption.. | now apply contains_spec].
  - intros (tok & s & Htok & Hs & Hsub). exists (PyStr.lower s). split.
    + apply list_elem_of_fmap. now exists s.
    + apply existsb_elem_of. exists tok. split; [assumption | now apply contains_spec].
Qed.

Lemma Forall2_map_r {A B : Type} (P : A -> B -> Prop) (f : A -> B) (l : list A) :
  (forall x, P x (f x)) -> Forall2 P l (map f l).
Proof. intros Hf. induction l; simpl; constructor; auto. Qed.


(** ** Login *)

Lemma USERS_entries (u p : string) :
  USERS !! u = Some p ->
  (u = "kirubha" /\ p = "12345") \/ (u = "admin" /\ p = "admin123").
Proof.
  intros H. unfold USERS in H. apply elem_of_list_to_map_2 in H.
  repeat (apply elem_of_cons in H as [H|H]; [injection H as -> ->; auto|]).
  inversion H.
Qed.

Lemma is_empty_true (s : string) : PyStr.is_empty s = true <-> s = "".
Proof. apply String.eqb_eq. Qed.

Lemma is_empty_default (f : option string) :
  PyStr.is_empty (default "" f) = true <-> field_empty f.
Proof.
  rewrite is_empty_true. unfold field_empty.
  destruct f as [s|]; simpl; split.
  - intros ->. now right.
  - intros [H|H]; congruence.
  - intros _. now left.
  - reflexivity.
Qed.

Lemma login_fields (body : option login_body) :
  default "" (username (match body with
                        | Some d => d
                        | None => {| username := None; password := None |}
                        end)) = default "" (body_username body)
  /\ default "" (password (match body with
                           | Some d => d
                           | None => {| username := None; password := None |}
                           end)) = default "" (body_password body).
Proof. destruct body; split; reflexivity. Qed.

(** The three branches of [login]. *)
Lemma login_cases (fresh : string) (body : option login_body) (S : sessions) :
  let u := default "" (body_username body) in
  let p := default "" (body_password body) in
  (some_field_empty body
   /\ login fresh body S
      = ({| status := "guest"; login_session_id := Some fresh;
            login_message := "Guest session started" |},
         <[fresh := new_session "guest"]> S))
  \/ (~ some_field_empty body /\ credentials_match body
      /\ login fresh body S
         = ({| status := "ok"; login_session_id := Some u;
               login_message := "Welcome " +:+ u |},
            <[u := new_session u]> S))
  \/ (~ some_field_empty body /\ ~ credentials_match body
      /\ login fresh body S
         = ({| status := "error"; login_session_id := None;
               login_message := "Invalid credentials" |}, S)).
Proof.
  intros u p. unfold login.
  destruct (login_fields body) as [-> ->]. fold u p.
  pose proof (is_empty_default (body_username body)) as Hu.
  pose proof (is_empty_default (body_password body)) as Hp.
  fold u in Hu. fold p in Hp.
  destruct (PyStr.is_empty u) eqn:Eu; simpl.
  { left. split; [left; now apply Hu | reflexivity]. }
  destruct (PyStr.is_empty p) eqn:Ep; simpl.
  { left. split; [right; now apply Hp | reflexivity]. }
  assert (~ some_field_empty body) as Hne.
  { intros [H|H]; [apply Hu in H | apply Hp in H]; discriminate. }
  assert (body_username body = Some u /\ body_password body = Some p) as [Hbu Hbp].
  { unfold some_field_empty, field_empty in Hne. subst u p.
    destruct (body_username body), (body_password body); simpl; tauto. }
  right. destruct (USERS !! u) as [p'|] eqn:Hl.
  - destruct (String.eqb p' p) eqn:Heq.
    + apply String.eqb_eq in Heq. subst p'. left. repeat split; [assumption|].
      now exists u, p.
    + right. repeat split; [assumption|].
      intros (u' & p'' & Hu' & Hp' & Hl'). rewrite Hbu in Hu'. rewrite Hbp in Hp'.
      injection Hu' as <-. injection Hp' as <-. rewrite Hl in Hl'.
      injection Hl' as ->. rewrite String.eqb_refl in Heq. discriminate.
  - right. repeat split; [assumption|].
    intros (u' & p'' & Hu' & Hp' & Hl'). rewrite Hbu in Hu'.
    injection Hu' as <-. congruence.
Qed.

(** C2, as amended.  The status is "ok" exactly when the pair of user
    name and password is in the fixed credential table, "guest" exactly
    when the user name or the password is missing or empty (an unparsable
    body has neither), and "error" in every other case; the guest case
    stores a new session with an empty history and the user "guest" under
    the newly generated identifier, which the response carries. *)
Theorem login_status (fresh : string) (body : option login_body) (S : sessions) :
  let r := fst (login fresh body S) in
  let S' := snd (login fresh body S) in
  (status r = "ok" <-> credentials_match body)
  /\ (status r = "guest" <-> some_field_empty body)
  /\ (status r = "error" <-> ~ credentials_match body /\ ~ some_field_empty body)
  /\ (some_field_empty body ->
      login_session_id r = Some fresh
      /\ S' = <[fresh := {| history := []; user := "guest" |}]> S).
Proof.
  intros r S'. subst r S'.
  assert (credentials_match body -> ~ some_field_empty body) as Hexcl.
  { intros (u & p & Hu & Hp & Hl) [He|He]; apply USERS_entries in Hl;
      unfold field_empty in He; rewrite ?Hu, ?Hp in He;
      destruct He as [He|He]; try discriminate; injection He as ->;
      destruct Hl as [[? ?]|[? ?]]; discriminate. }
  destruct (login_cases fresh body S) as [[Hg ->] | [(Hng & Hm & ->) | (Hng & Hnm & ->)]];
    cbn [fst snd status login_session_id].
  all: repeat split; try discriminate; tauto.
Qed.

Lemma login_status_witness :
  login_session_id (fst (login "5c1e" (Some {| username := Some ""; password := None |}) ∅))
  = Some "5c1e"
  /\ snd (login "5c1e" (Some {| username := Some ""; password := None |}) ∅)
     = <["5c1e" := {| history := []; user := "guest" |}]> ∅.
Proof.
  apply (proj2 (proj2 (proj2 (login_status "5c1e"
                                (Some {| username := Some ""; password := None |}) ∅)))).
  left. right. reflexivity.
Defined.

(** C2 as stated fails: a request with the user name kirubha and no
    password is answered "guest", although its user name is not empty
    (and "error" is what the claim says of it). *)
Lemma login_guest_with_username :
  status (fst (login "3f2b" (Some {| username := Some "kirubha"; password := None |}) ∅))
  = "guest"
  /\ ~ both_fields_empty (Some {| username := Some "kirubha"; password := None |}).
Proof.
  split; [vm_compute; reflexivity|].
  intros [[H|H] _]; discriminate.
Qed.

(** ** The session store under /ask *)

Lemma setdefault_guest_insert (i : string) (x : session) (m : sessions) :
  setdefault_guest i (<[i := x]> m) = <[i := x]> m.
Proof. unfold setdefault_guest. now rewrite lookup_insert_eq. Qed.

Lemma append_history_insert (i who text : string) (x : session) (m : sessions) :
  append_history i who text (<[i := x]> m) = <[i := push_message who text x]> m.
Proof. unfold append_history. apply alter_insert_eq. Qed.

Lemma setdefault_guest_as_insert (i : string) (m : sessions) :
  setdefault_guest i m = <[i := default (new_session "guest") (m !! i)]> m.
Proof.
  unfold setdefault_guest. destruct (m !! i) as [x|] eqn:Hl; simpl.
  - symmetry. now apply insert_id.
  - reflexivity.
Qed.

(** [ask] on a parsed body, with the store written out: the session the
    call works on gets the query as a user message before anything else,
    and the answer as a message of elix unless the query is empty. *)
Lemma ask_recorded (py : builtins) (num : Number float) (DATA : list row)
    (fresh : string) (data : ask_body) (S : sessions) :
  ask py num DATA fresh (Some data) S =
  let sid := effective_session_id fresh data in
  let q := sent_query data in
  let opened := push_message "user" q (prior_session data S) in
  if PyStr.is_empty q then
    (Return {| answer := empty_query_answer; insights := None;
               response_session_id := None |},
     <[sid := opened]> S)
  else
    match find_profile DATA q with
    | None =>
        (Return {| answer := not_found_answer; insights := None;
                   response_session_id := None |},
         <[sid := push_message "elix" not_found_answer opened]> S)
    | Some profile =>
        (Return {| answer := i_summary_text (insights_of py num profile);
                   insights := Some (insights_of py num profile);
                   response_session_id := Some sid |},
         <[sid := push_message "elix" (i_summary_text (insights_of py num profile))
                               opened]> S)
    end.
Proof.
  unfold ask, effective_session_id, prior_session, sent_query.
  destruct (session_id data) as [s|]; [destruct (PyStr.is_empty s)|];
    cbv zeta beta iota;
    rewrite ?setdefault_guest_insert, ?setdefault_guest_as_insert,
      ?append_history_insert;
    (destruct (PyStr.is_empty (PyStr.strip _)); [reflexivity|]);
    (destruct (find_profile _ _); [|reflexivity]);
    now rewrite append_history_insert.
Qed.




(** The store after a call of [ask] on a parsed body: the session of the
    call holds the earlier history, the query, and the messages [tail] of
    elix; every other session is as before. *)
Lemma ask_store (py : builtins) (num : Number float) (DATA : list row)
    (fresh : string) (data : ask_body) (S : sessions) :
  let sid := effective_session_id fresh data in
  let q := sent_query data in
  let prior := prior_session data S in
  exists tail,
    snd (ask py num DATA fresh (Some data) S)
    = <[sid := {| history := history prior ++ {| sender := "user"; msg := q |} :: tail;
                  user := user prior |}]> S
    /\ (q = "" -> tail = [])
    /\ (q <> "" -> find_profile DATA q = None ->
        tail = [ {| sender := "elix"; msg := not_found_answer |} ]).
Proof.
  intros sid q prior. rewrite ask_recorded. cbv zeta. fold sid q prior.
  destruct (PyStr.is_empty q) eqn:He.
  - exists []. repeat split; auto.
    intros Hne. apply is_empty_true in He. contradiction.
  - assert (q <> "") as Hq by (intros Hq; apply is_empty_true in Hq; congruence).
    destruct (find_profile DATA q) as [profile|].
    + eexists [_]. cbn [snd]. unfold push_message. cbn [history user].
      rewrite <- app_assoc. split; [reflexivity|].
      split; [intros; contradiction | intros _ Hn; discriminate Hn].
    + eexists [_]. cbn [snd]. unfold push_message. cbn [history user].
      rewrite <- app_assoc. split; [reflexivity|].
      split; [intros; contradiction | reflexivity].
Qed.




(** ** Login and the stored history *)





(** ** The insights of a matched record *)

(** What [ask] reports for a matched record: the roadmap of the record's
    domain, or the roadmap of Data for a domain the table does not have;
    the internships and certifications that [safe_split] finds in the
    text [str(...)] of the record's fields, or the defaults of the domain
    (none for an unknown domain) when it finds none. *)
Lemma insights_of_selection (py : builtins) (num : Number float) (profile : row) :
  let ins := insights_of py num profile in
  let text c := Str (py_str (cell_or (row_get c "") "")) in
  i_domain ins = py_str (cell_or (row_get (Interested_Domain profile) "") "")
  /\ i_roadmap ins
     = match roadmaps !! i_domain ins with
       | Some steps => steps
       | None => default [] (roadmaps !! "Data")
       end
  /\ i_internships ins
     = match safe_split (text (Internships profile)) with
       | [] => default [] (default_internships !! i_domain ins)
       | listed => listed
       end
  /\ i_certifications ins
     = match safe_split (text (Certifications profile)) with
       | [] => default [] (default_certifications !! i_domain ins)
       | listed => listed
       end.
Proof.
  unfold insights_of, performance_level.
  destruct (compute_skill_fit _ _) as [labels values]. cbv zeta.
  cbn [i_domain i_roadmap i_internships i_certifications].
  split; [reflexivity|]. split; [reflexivity|]. unfold list_or. split.
  - now destruct (safe_split (Str (py_str (cell_or (row_get (Internships profile) "") "")))).
  - now destruct (safe_split (Str (py_str (cell_or (row_get (Certifications profile) "") "")))).
Qed.

(** C8 at a record whose Internships and Certifications fields are empty
    in the dataset (NaN after [read_csv]): [safe_split] finds no value in
    either field, the domain AI has defaults, and the response lists the
    single internship and the single certification "nan". *)
Theorem ask_reports_nan_for_empty_fields (py : builtins) (num : Number float) :
  let r := fst (ask py num [no_internships_listed] "5c1e"
                  (Some {| query := Some "2001"; session_id := None |}) ∅) in
  safe_split (row_get (Internships no_internships_listed) "") = []
  /\ safe_split (row_get (Certifications no_internships_listed) "") = []
  /\ exists ins,
      r = Return {| answer := i_summary_text ins; insights := Some ins;
                    response_session_id := Some "5c1e" |}
      /\ i_domain ins = "AI"
      /\ default_internships !! "AI" = Some ["AI Intern at Google"; "ML Intern at TCS"]
      /\ default_certifications !! "AI" = Some ["AWS ML Specialty"; "TensorFlow Developer"]
      /\ i_internships ins = ["nan"]
      /\ i_certifications ins = ["nan"].
Proof.
  intros r. subst r. split; [reflexivity|]. split; [reflexivity|].
  rewrite ask_recorded.
  change (sent_query {| query := Some "2001"; session_id := None |}) with "2001".
  change (PyStr.is_empty "2001") with false.
  replace (find_profile [no_internships_listed] "2001")
    with (Some no_internships_listed) by (vm_compute; reflexivity).
  cbv zeta iota. cbn [fst].
  exists (insights_of py num no_internships_listed).
  destruct (insights_of_selection py num no_internships_listed)
    as (Hd & _ & Hi & Hc).
  cbv zeta in Hd, Hi, Hc. split; [reflexivity|].
  split; [exact Hd|]. split; [vm_compute; reflexivity|].
  split; [vm_compute; reflexivity|].
  rewrite Hi, Hc. split; reflexivity.
Qed.

(** ** The download route *)

Lemma draw_items_no_save (items : list string) (y : Z) (ops : list canvas_op) :
  Save ∉ ops -> Save ∉ snd (draw_items items y ops).
Proof.
  revert y ops. induction items as [|item items IH]; intros y ops Hops; simpl.
  - assumption.
  - destruct (y - 16 <? 80)%Z; apply IH; rewrite !elem_of_app, !elem_of_cons,
      !elem_of_nil; intros H; intuition discriminate.
Qed.

(** The title is the second call on the canvas, and stays so. *)
Lemma draw_items_keeps_prefix (items : list string) (y : Z) (ops : list canvas_op) :
  ops `prefix_of` snd (draw_items items y ops).
Proof.
  revert y ops. induction items as [|item items IH]; intros y ops; simpl.
  - reflexivity.
  - destruct (y - 16 <? 80)%Z; (etrans; [|apply IH]).
    + rewrite <- app_assoc. now apply prefix_app_r.
    + now apply prefix_app_r.
Qed.

(** For a student who is in the dataset [download_plan] draws the plan
    on a canvas, never saves it, and returns [None]. *)
Lemma download_plan_found (py : builtins) (DATA : list row) (student_id : string)
    (r : row) :
  find_student student_id DATA = Some r ->
  exists out,
    download_plan py DATA student_id = Return out
    /\ returned out = None
    /\ (Save ∉ canvas_ops out)
    /\ (canvas_ops out !! 1%nat)
       = Some (DrawString 40 750
                 ("Career Plan — " +:+ py_str (cell_or (row_get (Name r) "") "Student")
                  +:+ " (ID: " +:+ student_id +:+ ")")).
Proof.
  intros Hf. unfold download_plan. rewrite Hf. cbv zeta.
  set (ops0 := (_ ++ [SetFont "Helvetica" 12])).
  pose proof (draw_items_no_save (careers_of r) 652 ops0) as N1.
  pose proof (draw_items_keeps_prefix (careers_of r) 652 ops0) as P1.
  unfold careers_of in N1, P1. change (720 - 20 - 30 - 18)%Z with 652%Z.
  destruct (draw_items _ 652 ops0) as [y1 ops1]. cbn [snd] in N1, P1.
  set (ops1' := (_ ++ [SetFont "Helvetica" 12])).
  pose proof (draw_items_no_save
                (safe_split (Str (py_str (cell_or (row_get (Certifications r) "") ""))))
                (y1 - 10 - 18) ops1') as N2.
  pose proof (draw_items_keeps_prefix
                (safe_split (Str (py_str (cell_or (row_get (Certifications r) "") ""))))
                (y1 - 10 - 18) ops1') as P2.
  destruct (draw_items _ (y1 - 10 - 18)%Z ops1') as [y2 ops2]. cbn [snd] in N2, P2.
  set (ops2' := (_ ++ [SetFont "Helvetica" 12])).
  pose proof (draw_items_no_save
                (safe_split (Str (py_str (cell_or (row_get (Internships r) "") ""))))
                (y2 - 10 - 18) ops2') as N3.
  pose proof (draw_items_keeps_prefix
                (safe_split (Str (py_str (cell_or (row_get (Internships r) "") ""))))
                (y2 - 10 - 18) ops2') as P3.
  destruct (draw_items _ (y2 - 10 - 18)%Z ops2') as [y3 ops3]. cbn [snd] in N3, P3.
  eexists. split; [reflexivity|]. cbn [returned canvas_ops].
  assert (Save ∉ ops0) as H0.
  { subst ops0. rewrite !elem_of_app, !elem_of_cons, !elem_of_nil.
    intros H; intuition discriminate. }
  assert (Save ∉ ops1') as H1.
  { subst ops1'. specialize (N1 H0). rewrite !elem_of_app, !elem_of_cons, !elem_of_nil.
    intros H; intuition discriminate. }
  assert (Save ∉ ops2') as H2.
  { subst ops2'. specialize (N2 H1). rewrite !elem_of_app, !elem_of_cons, !elem_of_nil.
    intros H; intuition discriminate. }
  split; [reflexivity|]. split; [auto|].
  assert (ops0 `prefix_of` ops3) as Hp.
  { etrans; [exact P1|]. etrans; [|exact P3]. etrans; [|apply prefix_app_r; reflexivity].
    etrans; [|apply prefix_app_r; exact P2]. subst ops1'.
    rewrite <- app_assoc. apply prefix_app_r. reflexivity. }
  destruct Hp as [rest ->]. subst ops0. reflexivity.
Qed.

(** C1 at the first sample student.  [download_plan] draws the title,
    the GPA and marks lines and the three bulleted sections, but it does
    not save the canvas and it returns [None], not a file response: the
    [c.save()] and the [return FileResponse(...)] that would finish the
    route stand after the [return] of [root], out of reach. *)
Theorem download_plan_returns_nothing (py : builtins) :
  exists out,
    download_plan py sample_dataset "1001" = Return out
    /\ returned out = None
    /\ (Save ∉ canvas_ops out)
    /\ (canvas_ops out !! 1%nat)
       = Some (DrawString 40 750 "Career Plan — Aishwarya Iyer (ID: 1001)")
    /\ root = {| path := "static/index.html"; download_name := None;
                 media_type := None |}.
Proof.
  edestruct (download_plan_found py sample_dataset "1001") as (out & Ho & Hr & Hs & Ht).
  { vm_compute. reflexivity. }
  exists out. repeat split; assumption || reflexivity.
Qed.

(** ** Rounding to one decimal, over the rationals *)

Section RoundHalfEven.
Local Open Scope Z_scope.

Lemma round_half_even_cases (n d : Z) :
  0 < d ->
  exists q r, n = d * q + r /\ 0 <= r < d
              /\ (round_half_even n d = q /\ 2 * r <= d
                  \/ round_half_even n d = q + 1 /\ d <= 2 * r).
Proof.
  intros Hd. exists (n / d), (n mod d).
  split; [apply Z.div_mod; lia|]. split; [apply Z.mod_pos_bound; lia|].
  unfold round_half_even.
  destruct (Z.compare_spec (2 * (n mod d)) d) as [He|Hl|Hg].
  - destruct (Z.even (n / d)); [left | right]; lia.
  - left. lia.
  - right. lia.
Qed.

(** The rounded value is within half a unit of [n / d]. *)
Lemma round_half_even_near (n d : Z) :
  0 < d ->
  d * (2 * round_half_even n d - 1) <= 2 * n <= d * (2 * round_half_even n d + 1).
Proof.
  intros Hd. destruct (round_half_even_cases n d Hd) as (q & r & -> & Hr & [[-> H]|[-> H]]);
    nia.
Qed.



(** The rounded value depends on the fraction only. *)
Lemma round_half_even_fraction (n1 d1 n2 d2 : Z) :
  0 < d1 -> 0 < d2 -> n1 * d2 = n2 * d1 ->
  round_half_even n1 d1 = round_half_even n2 d2.
Proof.
  intros H1 H2 Heq. unfold round_half_even.
  assert (n1 / d1 = n2 / d2) as Hq.
  { pose proof (Z.div_mod n1 d1 ltac:(lia)) as E1.
    pose proof (Z.mod_pos_bound n1 d1 H1) as B1.
    pose proof (Z.div_mod n2 d2 ltac:(lia)) as E2.
    pose proof (Z.mod_pos_bound n2 d2 H2) as B2.
    set (q1 := n1 / d1) in *. set (q2 := n2 / d2) in *.
    set (r1 := n1 mod d1) in *. set (r2 := n2 mod d2) in *.
    assert (r1 * d2 < d1 * d2) by nia. assert (0 <= r1 * d2) by nia.
    assert (r2 * d1 < d1 * d2) by nia. assert (0 <= r2 * d1) by nia.
    assert (d1 * d2 * q1 + r1 * d2 = d1 * d2 * q2 + r2 * d1) as Hx by lia.
    assert (0 < d1 * d2) by nia.
    destruct (Z.lt_trichotomy q1 q2) as [Hlt|[Heq'|Hgt]]; [exfalso | assumption | exfalso].
    - assert (d1 * d2 * (q1 + 1) <= d1 * d2 * q2) by (apply Z.mul_le_mono_nonneg_l; lia).
      lia.
    - assert (d1 * d2 * (q2 + 1) <= d1 * d2 * q1) by (apply Z.mul_le_mono_nonneg_l; lia).
      lia. }
  assert (n1 mod d1 * d2 = n2 mod d2 * d1) as Hr.
  { rewrite !Z.mod_eq by lia. rewrite Hq. nia. }
  rewrite Hq.
  destruct (Z.compare_spec (2 * (n1 mod d1)) d1) as [He|Hl|Hg];
    destruct (Z.compare_spec (2 * (n2 mod d2)) d2) as [He'|Hl'|Hg'];
    try reflexivity; exfalso; nia.
Qed.

Lemma round_half_even_integer (k d : Z) : 0 < d -> round_half_even (d * k) d = k.
Proof.
  intros Hd. unfold round_half_even.
  replace (d * k) with (k * d) by lia.
  rewrite Z.div_mul, Z.mod_mul by lia.
  destruct (Z.compare_spec (2 * 0) d); lia.
Qed.

End RoundHalfEven.

Lemma exact_round1_tenths (x : Q) :
  exists t : Z, Exact.round1 x = Qmake t 10
                /\ (Qmake (2 * t - 1) 20 <= x /\ x <= Qmake (2 * t + 1) 20)%Q.
Proof.
  destruct x as [n d]. unfold Exact.round1. cbn [Qnum Qden].
  eexists. split; [reflexivity|].
  pose proof (round_half_even_near (10 * n) (Zpos d) ltac:(lia)) as H.
  unfold Qle. cbn [Qnum Qden]. lia.
Qed.

Lemma exact_round1_proper (x y : Q) : (x == y)%Q -> Exact.round1 x = Exact.round1 y.
Proof.
  intros H. unfold Exact.round1. f_equal.
  apply round_half_even_fraction; [lia.. |]. unfold Qeq in H. lia.
Qed.

Lemma exact_round1_of_tenths (k : Z) : Exact.round1 (Qmake k 10) = Qmake k 10.
Proof.
  unfold Exact.round1. cbn [Qnum Qden]. f_equal.
  apply round_half_even_integer. lia.
Qed.



(** ** The performance level *)











(** ** The career weights *)

Section CareerWeights.
Context {F : Type} {num : Number F}.

Lemma career_weights_shape (n : nat) :
  (1 <= n)%nat ->
  career_weights n = repeat (even_share n) (n - 1) ++ [last_weight n].
Proof.
  intros Hn. unfold career_weights, last_weight.
  fold (even_share n). fold (rounding_remainder n).
  assert (repeat (even_share n) n = repeat (even_share n) (n - 1) ++ [even_share n]) as Hr.
  { destruct n as [|m]; [lia|]. replace (S m - 1)%nat with m by lia.
    cbn [repeat]. apply repeat_cons. }
  assert (length (repeat (even_share n) (n - 1)) = (n - 1)%nat) as Hl
      by apply repeat_length.
  destruct (num_eq (rounding_remainder n) (num_lit 0)); cbn [negb]; [exact Hr|].
  rewrite Hr.
  rewrite lookup_app_r by lia. rewrite Hl, Nat.sub_diag. cbn [lookup list_lookup].
  rewrite insert_app_r_alt by lia. rewrite Hl, Nat.sub_diag. reflexivity.
Qed.

Lemma career_weights_length (n : nat) : (1 <= n)%nat -> length (career_weights n) = n.
Proof.
  intros Hn. rewrite career_weights_shape by assumption.
  rewrite length_app, repeat_length. simpl. lia.
Qed.

Lemma zip_with_career_weight (cs : list string) (ws : list F) :
  length cs = length ws ->
  map career (zip_with (fun c w => {| career := c; weight := w |}) cs ws) = cs
  /\ map weight (zip_with (fun c w => {| career := c; weight := w |}) cs ws) = ws.
Proof.
  revert ws. induction cs as [|c cs IH]; intros [|w ws] Hlen; try discriminate.
  - split; reflexivity.
  - injection Hlen as Hlen. destruct (IH ws Hlen) as [H1 H2].
    cbn [zip_with map career weight]. now rewrite H1, H2.
Qed.

Lemma build_career_weights_shape (r : row) :
  let n := length (careers_of r) in
  map career (build_career_weights r) = careers_of r
  /\ (n = 0%nat -> build_career_weights r = [])
  /\ ((1 <= n)%nat ->
      map weight (build_career_weights r) = career_weights n).
Proof.
  intros n. unfold build_career_weights. fold (careers_of r).
  destruct (careers_of r) as [|c cs] eqn:Hc.
  - repeat split. simpl in n. lia.
  - assert (length (c :: cs) = length (career_weights (length (c :: cs)))) as Hlen
        by (symmetry; apply career_weights_length; simpl; lia).
    destruct (zip_with_career_weight (c :: cs) _ Hlen) as [H1 H2].
    split; [exact H1|]. split; [discriminate|]. intros _. exact H2.
Qed.

End CareerWeights.

(** Sums over the rationals. *)
Lemma exact_sum_from (l : list Q) (a : Q) :
  (fold_left Qplus l a == a + Exact.sum l)%Q.
Proof.
  unfold Exact.sum. revert a. induction l as [|x l IH]; intros a; simpl.
  - change (inject_Z 0) with 0%Q. ring.
  - rewrite IH, (IH (inject_Z 0 + x)%Q). change (inject_Z 0) with 0%Q. ring.
Qed.

Lemma exact_sum_app (l1 l2 : list Q) :
  (Exact.sum (l1 ++ l2) == Exact.sum l1 + Exact.sum l2)%Q.
Proof.
  unfold Exact.sum at 1. rewrite fold_left_app, exact_sum_from.
  reflexivity.
Qed.

Lemma exact_sum_repeat (x : Q) (n : nat) :
  (Exact.sum (repeat x n) == inject_Z (Z.of_nat n) * x)%Q.
Proof.
  induction n as [|n IH].
  - reflexivity.
  - change (repeat x (S n)) with ([x] ++ repeat x n).
    rewrite exact_sum_app, IH, Nat2Z.inj_succ. unfold Z.succ.
    rewrite inject_Z_plus. unfold Exact.sum. simpl.
    change (inject_Z 0) with 0%Q. change (inject_Z 1) with 1%Q. ring.
Qed.

(** Over the rationals the weights of [n >= 1] careers add up to 100. *)
Lemma exact_career_weights_total (n : nat) :
  (1 <= n)%nat -> (Exact.sum (career_weights (num := exact) n) == 100)%Q.
Proof.
  intros Hn. rewrite career_weights_shape by assumption.
  rewrite exact_sum_app, exact_sum_repeat.
  destruct (exact_round1_tenths (Qdiv (inject_Z 100) (inject_Z (Z.of_nat n))))
    as (t & Ht & _).
  assert (even_share (num := exact) n = Qmake t 10) as He by exact Ht.
  assert (rounding_remainder (num := exact) n = Qmake (1000 - Z.of_nat n * t) 10) as Hd.
  { unfold rounding_remainder. rewrite He. cbn [exact num_round1 num_sub num_sum num_lit].
    transitivity (Exact.round1 (Qmake (1000 - Z.of_nat n * t) 10));
      [|apply exact_round1_of_tenths].
    apply exact_round1_proper. rewrite exact_sum_repeat. unfold Qeq, Qminus, Qplus, Qopp, Qmult, inject_Z.
    cbn [Qnum Qden]. lia. }
  unfold last_weight. rewrite Hd, He. cbn [exact num_eq num_add num_lit].
  replace (Z.of_nat (n - 1)) with (Z.of_nat n - 1)%Z by lia.
  destruct (Qeq_bool _ _) eqn:Hz.
  - apply Qeq_bool_iff in Hz. unfold Exact.sum. simpl.
    revert Hz. unfold Qeq, Qminus, Qplus, Qopp, Qmult, inject_Z.
    cbn [Qnum Qden]. lia.
  - unfold Exact.sum. simpl. unfold Qeq, Qminus, Qplus, Qopp, Qmult, inject_Z.
    cbn [Qnum Qden]. lia.
Qed.

(** In binary64 the weights of up to eight careers add up to 100.0, with
    the plain and with the compensated [sum]. *)
Lemma binary64_career_weights_total (n : nat) :
  (1 <= n <= 8)%nat ->
  Binary64.sum_left (career_weights (num := binary64) n) = 100%float
  /\ Binary64.sum_compensated (career_weights (num := binary64_compensated) n) = 100%float
  /\ career_weights (num := binary64_compensated) n = career_weights (num := binary64) n.
Proof.
  intros Hn.
  do 9 (destruct n as [|n]; [try lia; repeat split; vm_compute; reflexivity|]).
  lia.
Qed.

(** C6, as amended.  [build_career_weights] pairs the careers of the
    record, in order, with weights: none when the record has no career,
    and otherwise the equal share round(100/n, 1) for every career but
    the last, whose weight is the equal share plus the rounding remainder
    round(100 - n shares, 1) when that is not zero.  Over the rationals
    the weights of any n >= 1 careers add up to exactly 100; in binary64
    they add up to exactly 100.0 for n from 1 to 8 (so for 1 to 5), with
    the plain and with the compensated [sum]. *)
Theorem career_weights_spec :
  (forall (F : Type) (num : Number F) (r : row),
      let n := length (careers_of r) in
      map career (build_career_weights r) = careers_of r
      /\ (n = 0%nat -> build_career_weights r = [])
      /\ ((1 <= n)%nat ->
          map weight (build_career_weights r)
          = repeat (even_share n) (n - 1) ++ [last_weight n]))
  /\ (forall r : row,
         (1 <= length (careers_of r))%nat ->
         (Exact.sum (map weight (build_career_weights (num := exact) r)) == 100)%Q)
  /\ (forall r : row,
         (1 <= length (careers_of r) <= 8)%nat ->
         Binary64.sum_left (map weight (build_career_weights (num := binary64) r))
         = 100%float
         /\ Binary64.sum_compensated
              (map weight (build_career_weights (num := binary64_compensated) r))
            = 100%float).
Proof.
  split; [|split].
  - intros F num r n.
    destruct (build_career_weights_shape (num := num) r) as (H1 & H2 & H3). fold n in H2, H3.
    repeat split; [assumption.. |]. intros Hn.
    rewrite (H3 Hn). now apply career_weights_shape.
  - intros r Hn.
    destruct (build_career_weights_shape (num := exact) r) as (_ & _ & H3).
    rewrite (H3 Hn). now apply exact_career_weights_total.
  - intros r Hn.
    destruct (build_career_weights_shape (num := binary64) r) as (_ & _ & H3).
    destruct (build_career_weights_shape (num := binary64_compensated) r) as (_ & _ & H3').
    rewrite (H3 ltac:(lia)), (H3' ltac:(lia)).
    destruct (binary64_career_weights_total _ Hn) as (Ha & Hb & _). now split.
Qed.

Lemma career_weights_spec_witness :
  Binary64.sum_left
    (map weight
       (build_career_weights (num := binary64)
          (sample_row "1001" "Aishwarya Iyer" 9.06 95 92
             "Excel;Power BI;NumPy;JavaScript;SQL" "Data"
             "Data Analyst;Business Analyst;Data Scientist;BI Developer"
             "Analytics Intern at X;BI Intern at Y" "Power BI Cert;Excel Advanced")))
  = 100%float.
Proof.
  apply (proj2 (proj2 career_weights_spec)). vm_compute. split; lia.
Defined.

(** C6 as stated fails for twelve careers in binary64: the equal share is
    8.3, the remainder 0.4, and 8.3 + 0.4 is the double
    8.700000000000001; the twelve weights then add up to
    99.999999999999986 with the plain [sum] and to 100.00000000000001
    with the compensated one, and their exact values do not add up to
    100 either. *)
Lemma twelve_weights_miss_100 :
  let w := map weight (build_career_weights (num := binary64) twelve_careers) in
  length w = 12%nat
  /\ w = map weight (build_career_weights (num := binary64_compensated) twelve_careers)
  /\ last w = Some 8.700000000000001%float
  /\ Binary64.sum_left w = 99.999999999999986%float
  /\ Binary64.sum_compensated w = 100.00000000000001%float
  /\ PrimFloat.eqb (Binary64.sum_left w) 100 = false
  /\ PrimFloat.eqb (Binary64.sum_compensated w) 100 = false
  /\ Qeq_bool (Exact.sum (map exact_value w)) 100 = false.
Proof. repeat split; vm_compute; reflexivity. Qed.

(** ** The examples of the specification, evaluated *)

Example strip_example : PyStr.strip "  Data Analyst " = "Data Analyst".
Proof. reflexivity. Qed.

Example split_on_example : PyStr.split_on ";" "a;b;;c" = ["a"; "b"; ""; "c"].
Proof. reflexivity. Qed.

Example split_ws_example :
  PyStr.split_ws "  Machine   Learning " = ["Machine"; "Learning"].
Proof. reflexivity. Qed.

Example safe_split_examples :
  safe_split (Str "Excel; Power BI ;;SQL") = ["Excel"; "Power BI"; "SQL"]
  /\ safe_split (Str "CEH, Network+") = ["CEH"; "Network+"]
  /\ safe_split (Str " Java ") = ["Java"]
  /\ safe_split (Str "") = [""]
  /\ safe_split (Str ";") = []
  /\ safe_split NaN = [].
Proof. repeat split; reflexivity. Qed.

Example round1_examples :
  Binary64.round1 0.25 = 0.2%float
  /\ Binary64.round1 0.35 = 0.3%float
  /\ Binary64.round1 2.675 = 2.7%float
  /\ Binary64.round1 (-0.25) = (-0.2)%float
  /\ Binary64.round1 (100 / 3) = 33.3%float
  /\ Exact.round1 (Qmake 25 100) = Qmake 2 10
  /\ Exact.round1 (Qmake 35 100) = Qmake 4 10.
Proof. repeat split; vm_compute; reflexivity. Qed.

(** The resolver on the sample dataset: an identifier, a domain, a skill. *)
Example find_profile_examples :
  (Name <$> find_profile sample_dataset "1001") = Some (Some (Str "Aishwarya Iyer"))
  /\ (Name <$> find_profile sample_dataset "cybersecurity")
     = Some (Some (Str "Priya Sharma"))
  /\ (Name <$> find_profile sample_dataset "python") = Some (Some (Str "Aarav Kumar"))
  /\ find_profile sample_dataset "quantum" = None.
Proof. repeat split; vm_compute; reflexivity. Qed.

(** The sample student 1002 as /ask reports it. *)
Example ask_example :
  exists ins,
    fst (ask plain_builtins binary64 sample_dataset "5c1e"
           (Some {| query := Some " 1002 "; session_id := None |}) ∅)
    = Return {| answer := i_summary_text ins; insights := Some ins;
                response_session_id := Some "5c1e" |}
    /\ i_name ins = "Aarav Kumar"
    /\ i_performance ins = ("Good", 84.5%float)
    /\ i_radar ins
       = (["Python"; "Machine Learning"; "Deep Learning"; "Statistics"; "TensorFlow";
           "PyTorch"], [100; 100; 60; 20; 20; 20]%Z)
    /\ map career (i_career_suggestions ins)
       = ["ML Engineer"; "Data Scientist"; "AI Researcher"; "MLOps Engineer"]
    /\ map weight (i_career_suggestions ins) = [25; 25; 25; 25]%float
    /\ i_internships ins = ["ML Intern at Z"].
Proof. eexists. repeat split; vm_compute; reflexivity. Qed.

(** * Further properties of the code *)

(** ** Strings *)







Lemma rstrip_idem (s : string) : PyStr.rstrip (PyStr.rstrip s) = PyStr.rstrip s.
Proof.
  induction s as [|c s IH]; simpl; [reflexivity|].
  destruct (PyStr.rstrip s) as [|d r] eqn:Hr.
  - destruct (PyStr.is_space c) eqn:Hc; simpl; [reflexivity | now rewrite Hc].
  - simpl. simpl in IH. now rewrite IH.
Qed.

(** What [lstrip] returns does not start with white space, and [rstrip]
    and [lstrip] leave such a string's start alone. *)
Lemma lstrip_fixed (s : string) :
  match s with
  | EmptyString => True
  | String c _ => PyStr.is_space c = false
  end ->
  PyStr.lstrip s = s.
Proof. destruct s as [|c s]; simpl; [reflexivity | now intros ->]. Qed.

Lemma lstrip_start (s : string) :
  match PyStr.lstrip s with
  | EmptyString => True
  | String c _ => PyStr.is_space c = false
  end.
Proof.
  induction s as [|c s IH]; simpl; [exact I|].
  destruct (PyStr.is_space c) eqn:Hc; [assumption | exact Hc].
Qed.

Lemma rstrip_start (s : string) :
  match s with
  | EmptyString => True
  | String c _ => PyStr.is_space c = false
  end ->
  match PyStr.rstrip s with
  | EmptyString => True
  | String c _ => PyStr.is_space c = false
  end.
Proof.
  destruct s as [|c s]; simpl; [trivial|]. intros Hc.
  destruct (PyStr.rstrip s); [now rewrite Hc | assumption].
Qed.

Lemma strip_idem (s : string) : PyStr.strip (PyStr.strip s) = PyStr.strip s.
Proof.
  unfold PyStr.strip.
  rewrite (lstrip_fixed (PyStr.rstrip (PyStr.lstrip s)))
    by apply rstrip_start, lstrip_start.
  apply rstrip_idem.
Qed.

Lemma contains_empty (s : string) : PyStr.contains "" s = true.
Proof. destruct s; reflexivity. Qed.

Lemma contains_char (c : ascii) (s : string) :
  PyStr.contains (String c "") s
  = negb (string_forall (fun x => negb (Ascii.eqb x c)) s).
Proof.
  induction s as [|y s IH]; [reflexivity|].
  cbn [PyStr.contains PyStr.starts_with string_forall]. rewrite IH.
  rewrite (Ascii.eqb_sym c y).
  destruct (Ascii.eqb y c); [|reflexivity]. now destruct s.
Qed.

Lemma lstrip_forall (P : ascii -> bool) (s : string) :
  string_forall P s = true -> string_forall P (PyStr.lstrip s) = true.
Proof.
  induction s as [|c s IH]; simpl; [trivial|].
  intros [Hc Hs]%andb_true_iff. destruct (PyStr.is_space c); [auto|].
  simpl. now rewrite Hc, Hs.
Qed.

Lemma rstrip_forall (P : ascii -> bool) (s : string) :
  string_forall P s = true -> string_forall P (PyStr.rstrip s) = true.
Proof.
  induction s as [|c s IH]; simpl; [trivial|].
  intros [Hc Hs]%andb_true_iff. specialize (IH Hs).
  destruct (PyStr.rstrip s).
  - destruct (PyStr.is_space c); simpl; [reflexivity | now rewrite Hc].
  - cbn [string_forall] in *. now rewrite Hc, IH.
Qed.

Lemma split_on_free (sep : ascii) (s p : string) :
  p ∈ PyStr.split_on sep s -> free_of sep p.
Proof.
  unfold free_of. revert p. induction s as [|c s IH]; intros p; simpl.
  - intros ->%list_elem_of_singleton. reflexivity.
  - destruct (Ascii.eqb c sep) eqn:Hc.
    + intros [->|Hin]%elem_of_cons; [reflexivity | auto].
    + destruct (PyStr.split_on sep s) as [|w ws] eqn:Hs.
      * intros ->%list_elem_of_singleton. simpl. now rewrite Hc.
      * intros [->|Hin]%elem_of_cons.
        -- simpl. rewrite Hc. simpl. apply IH. now left.
        -- apply IH. now right.
Qed.

(** ** [safe_split] *)

Lemma safe_split_piece (s p : string) :
  p ∈ safe_split (Str s) ->
  trimmed p
  /\ (PyStr.contains ";" s = true -> p <> "" /\ PyStr.contains ";" p = false)
  /\ (PyStr.contains ";" s = false -> PyStr.contains "," s = true ->
      p <> "" /\ PyStr.contains "," p = false).
Proof.
  assert (forall sep : ascii,
             p ∈ map PyStr.strip
                   (List.filter (fun p => negb (PyStr.is_empty (PyStr.strip p)))
                                (PyStr.split_on sep s)) ->
             trimmed p /\ p <> "" /\ PyStr.contains (String sep "") p = false) as Hsep.
  { intros sep Hin. apply list_elem_of_fmap in Hin as (w & -> & Hw).
    apply list_elem_of_In, filter_In in Hw as [Hw Hne].
    apply list_elem_of_In, split_on_free in Hw. split; [apply strip_idem|]. split.
    - intros He. unfold PyStr.is_empty in Hne. rewrite He in Hne. discriminate.
    - rewrite contains_char. unfold PyStr.strip.
      now rewrite rstrip_forall by now apply lstrip_forall. }
  unfold safe_split. cbn [safe_split_seps].
  destruct (PyStr.contains ";" s) eqn:H1.
  - intros Hin. destruct (Hsep _ Hin) as (Ht & Hne & Hc).
    repeat split; auto; discriminate.
  - destruct (PyStr.contains "," s) eqn:H2.
    + intros Hin. destruct (Hsep _ Hin) as (Ht & Hne & Hc).
      repeat split; auto; discriminate.
    + intros ->%list_elem_of_singleton. split; [apply strip_idem|].
      split; discriminate.
Qed.

(** The pieces [safe_split] returns are trimmed; when the text has a
    semicolon the pieces are not empty and have no semicolon, and when it
    has no semicolon but a comma they are not empty and have no comma. *)
Theorem safe_split_pieces (s p : string) :
  p ∈ safe_split (Str s) ->
  trimmed p
  /\ (PyStr.contains ";" s = true -> p <> "" /\ PyStr.contains ";" p = false)
  /\ (PyStr.contains ";" s = false -> PyStr.contains "," s = true ->
      p <> "" /\ PyStr.contains "," p = false).
Proof. apply safe_split_piece. Qed.

Lemma safe_split_pieces_witness :
  trimmed "Power BI"
  /\ (PyStr.contains ";" "Excel; Power BI ;;SQL" = true ->
      "Power BI" <> "" /\ PyStr.contains ";" "Power BI" = false)
  /\ (PyStr.contains ";" "Excel; Power BI ;;SQL" = false ->
      PyStr.contains "," "Excel; Power BI ;;SQL" = true ->
      "Power BI" <> "" /\ PyStr.contains "," "Power BI" = false).
Proof.
  apply (safe_split_pieces "Excel; Power BI ;;SQL" "Power BI").
  vm_compute. right. left.
Defined.

(** [safe_split] returns an empty piece in one case only: a text without
    semicolon and comma that is blank gives the one-element list [[""]];
    an empty dataset cell (NaN) gives the empty list. *)
Theorem safe_split_empty_piece (s : string) :
  ("" ∈ safe_split (Str s)
   <-> PyStr.contains ";" s = false /\ PyStr.contains "," s = false
       /\ PyStr.strip s = "")
  /\ (PyStr.contains ";" s = false -> PyStr.contains "," s = false ->
      PyStr.strip s = "" -> safe_split (Str s) = [""])
  /\ safe_split NaN = [].
Proof.
  split; [|split; [|reflexivity]].
  - split.
    + intros Hin. destruct (safe_split_piece s "" Hin) as (_ & H1 & H2).
      destruct (PyStr.contains ";" s) eqn:E1.
      { destruct (H1 eq_refl) as [Hn _]. now destruct Hn. }
      destruct (PyStr.contains "," s) eqn:E2.
      { destruct (H2 eq_refl eq_refl) as [Hn _]. now destruct Hn. }
      repeat split. unfold safe_split in Hin. cbn [safe_split_seps] in Hin.
      rewrite E1, E2 in Hin. now apply list_elem_of_singleton in Hin.
    + intros (E1 & E2 & E3). unfold safe_split. cbn [safe_split_seps].
      rewrite E1, E2, E3. now left.
  - intros E1 E2 E3. unfold safe_split. cbn [safe_split_seps]. now rewrite E1, E2, E3.
Qed.

Lemma safe_split_empty_piece_witness : safe_split (Str "   ") = [""].
Proof.
  apply (proj1 (proj2 (safe_split_empty_piece "   "))); reflexivity.
Defined.

(** ** [find_profile] at its edges *)

Lemma find_profile_rows_hit (q : string) (r : row) (rows : list row) :
  resolves q r -> find_profile_rows q (r :: rows) = Some r.
Proof.
  intros Hr. rewrite find_profile_rows_step.
  apply row_test_spec in Hr. now rewrite Hr.
Qed.

(** [find_profile] does not reject an empty query: the empty string is
    contained in every name, so a query that is empty after trimming
    resolves to the first record of the dataset (and to none only when
    the dataset is empty). *)
Theorem find_profile_empty_query (DATA : list row) (query : string) :
  PyStr.strip query = "" -> find_profile DATA query = head DATA.
Proof.
  intros Hq. unfold find_profile. rewrite Hq. cbn [PyStr.lower].
  destruct DATA as [|r rows]; [reflexivity|].
  apply find_profile_rows_hit. right; right; left. apply contains_spec, contains_empty.
Qed.

Lemma find_profile_empty_query_witness :
  find_profile sample_dataset "  " = head sample_dataset.
Proof. apply (find_profile_empty_query sample_dataset "  "). reflexivity. Defined.


(** A record that lists the empty skill matches every query.  This is
    the case of every record when the dataset has no Skills column (the
    default [""] of [row.get] is split into [[""]]), and of a record whose
    skills text is blank: [find_profile] then returns the first such
    record, or an earlier one, whatever the query is. *)
Theorem find_profile_without_skills (DATA : list row) (r : row) (query : string) :
  Skills r = None
  \/ (exists s, Skills r = Some (Str s) /\ PyStr.contains ";" s = false
                /\ PyStr.contains "," s = false /\ PyStr.strip s = "" /\ s <> "") ->
  find_profile (r :: DATA) query = Some r
  /\ forall pre, exists r', find_profile (pre ++ r :: DATA) query = Some r'.
Proof.
  intros Hs.
  assert (forall q, resolves q r) as Hres.
  { intros q. right; right; right; right. exists "". split; [|apply contains_spec, contains_empty].
    unfold record_skills.
    destruct Hs as [-> | (s & -> & E1 & E2 & E3 & Hne)].
    - now left.
    - cbn [row_get cell_or]. destruct (PyStr.is_empty s) eqn:He.
      { apply is_empty_true in He. contradiction. }
      unfold safe_split. cbn [safe_split_seps]. rewrite E1, E2, E3. now left. }
  split; [apply find_profile_rows_hit, Hres|].
  intros pre. unfold find_profile.
  destruct (find_profile_rows (PyStr.lower (PyStr.strip query)) (pre ++ r :: DATA))
    as [r'|] eqn:Hf; [now exists r'|].
  apply find_profile_rows_none in Hf. apply Forall_app in Hf as [_ Hf].
  inversion Hf; subst. exfalso. eauto.
Qed.

Lemma find_profile_without_skills_witness :
  find_profile
    [ {| Student_ID := Some (Str "7"); Name := Some (Str "Asha"); GPA := None;
         Marks_10th := None; Marks_12th := None; Marks_10th_alt := None;
         Marks_12th_alt := None; Skills := None; Interested_Domain := None;
         Career_Suggestions := None; Internships := None; Certifications := None |} ]
    "quantum"
  = Some {| Student_ID := Some (Str "7"); Name := Some (Str "Asha"); GPA := None;
            Marks_10th := None; Marks_12th := None; Marks_10th_alt := None;
            Marks_12th_alt := None; Skills := None; Interested_Domain := None;
            Career_Suggestions := None; Internships := None; Certifications := None |}.
Proof.
  apply (find_profile_without_skills [] _ "quantum"). left. reflexivity.
Defined.

(** ** The performance level grows with its inputs *)







(** ** The skill fit: bounds and monotonicity *)

Lemma skill_fit_value_cases (skills_lower : list string) (r : string) :
  let v := if existsb (String.eqb (PyStr.lower r)) skills_lower then 100%Z
           else if existsb (fun sk =>
                              existsb (fun r_part => PyStr.contains (PyStr.lower r_part) sk)
                                      (PyStr.split_ws r)) skills_lower
                then 60%Z else 20%Z in
  v = 100%Z \/ v = 60%Z \/ v = 20%Z.
Proof. cbv zeta. destruct (existsb _ _); [|destruct (existsb _ _)]; auto. Qed.

Lemma Forall2_map_same {A B : Type} (P : B -> B -> Prop) (f g : A -> B) (l : list A) :
  (forall x, x ∈ l -> P (f x) (g x)) -> Forall2 P (map f l) (map g l).
Proof.
  induction l as [|x l IH]; intros H; simpl; constructor.
  - apply H. now left.
  - apply IH. intros y Hy. apply H. now right.
Qed.

Lemma skill_value_unique (skills : list string) (r : string) (v w : Z) :
  skill_value skills r v -> skill_value skills r w -> v = w.
Proof. unfold skill_value. intros Hv Hw. intuition congruence. Qed.

Lemma compute_skill_fit_values (skills : list string) (domain : string) :
  Forall2 (skill_value skills)
          (default [] (DOMAIN_SKILL_MAP !! domain))
          (snd (compute_skill_fit skills domain)).
Proof.
  unfold compute_skill_fit. cbn [snd]. apply Forall2_map_r. intros r.
  unfold skill_value.
  pose proof (verbatim_test_spec skills r) as Hv.
  pose proof (overlap_test_spec skills r) as Ho.
  destruct (existsb (String.eqb (PyStr.lower r)) _).
  - left. split; [now apply Hv | reflexivity].
  - assert (~ present_verbatim skills r) as Hnv
        by (intros Hp; apply Hv in Hp; discriminate).
    destruct (existsb _ (map PyStr.lower skills)).
    + right; left. repeat split; [assumption | now apply Ho].
    + right; right. repeat split; [assumption|].
      intros Hp. apply Ho in Hp. discriminate.
Qed.

(** Adding skills to the student's list never lowers a value of the
    skill fit: position by position, the values for a larger list are at
    least the values for a smaller one. *)
Theorem compute_skill_fit_monotone (skills skills' : list string) (domain : string) :
  (forall s, s ∈ skills -> s ∈ skills') ->
  Forall2 Z.le (snd (compute_skill_fit skills domain))
               (snd (compute_skill_fit skills' domain)).
Proof.
  intros Hsub.
  pose proof (compute_skill_fit_values skills domain) as H1.
  pose proof (compute_skill_fit_values skills' domain) as H2.
  revert H1 H2. generalize (snd (compute_skill_fit skills domain)).
  generalize (snd (compute_skill_fit skills' domain)).
  induction (default [] (DOMAIN_SKILL_MAP !! domain)) as [|r reqs IH];
    intros vs' vs H1 H2; inversion H1; inversion H2; subst; constructor; [|now apply IH].
  match goal with
  | Ha : skill_value skills r ?a, Hb : skill_value skills' r ?b |- _ =>
      unfold skill_value, present_verbatim, token_overlap in Ha, Hb;
      destruct Ha as [[Hp ->] | [(Hnp & Ho & ->) | (Hnp & Hno & ->)]];
      destruct Hb as [[Hp' ->] | [(Hnp' & Ho' & ->) | (Hnp' & Hno' & ->)]];
      try lia; exfalso
  end.
  - destruct Hp as (s & Hs & He). apply Hnp'. exists s. auto.
  - destruct Hp as (s & Hs & He). apply Hnp'. exists s. auto.
  - destruct Ho as (tok & s & Ht & Hs & Hc). apply Hno'. exists tok, s. auto.
Qed.

Lemma compute_skill_fit_monotone_witness :
  Forall2 Z.le (snd (compute_skill_fit ["SQL"] "Data"))
               (snd (compute_skill_fit ["Power tools"; "SQL"] "Data")).
Proof.
  apply (compute_skill_fit_monotone ["SQL"] ["Power tools"; "SQL"] "Data").
  intros s Hs. now right.
Defined.

(** The skill fit at its ends: with no skill every value is 20, with
    every required skill (in any case) every value is 100, and no value
    is ever anything but 20, 60 or 100. *)
Theorem compute_skill_fit_extremes (skills : list string) (domain : string) :
  Forall (fun v => v = 20%Z) (snd (compute_skill_fit [] domain))
  /\ ((forall r, r ∈ default [] (DOMAIN_SKILL_MAP !! domain) ->
                 exists s, s ∈ skills /\ PyStr.lower s = PyStr.lower r) ->
      Forall (fun v => v = 100%Z) (snd (compute_skill_fit skills domain)))
  /\ Forall (fun v => v = 100%Z \/ v = 60%Z \/ v = 20%Z)
            (snd (compute_skill_fit skills domain)).
Proof.
  split; [|split].
  - unfold compute_skill_fit. cbn [snd map existsb]. apply Forall_fmap, Forall_true.
    intros r. reflexivity.
  - intros Hall. unfold compute_skill_fit. cbn [snd].
    apply Forall_fmap, Forall_forall. intros r Hr. cbn.
    destruct (Hall r Hr) as (s & Hs & He).
    assert (present_verbatim skills r) as Hp by (now exists s).
    apply verbatim_test_spec in Hp. now rewrite Hp.
  - unfold compute_skill_fit. cbn [snd]. apply Forall_fmap, Forall_true.
    intros r. apply skill_fit_value_cases.
Qed.

Lemma compute_skill_fit_extremes_witness :
  Forall (fun v => v = 100%Z)
         (snd (compute_skill_fit ["html"; "css"; "javascript"; "react"; "node.js"]
                                 "Web Development")).
Proof.
  apply (proj1 (proj2 (compute_skill_fit_extremes
                         ["html"; "css"; "javascript"; "react"; "node.js"]
                         "Web Development"))).
  intros r Hr. vm_compute in Hr.
  repeat (apply elem_of_cons in Hr as [->|Hr];
          [first [ exists "html"; split; [set_solver | reflexivity]
                 | exists "css"; split; [set_solver | reflexivity]
                 | exists "javascript"; split; [set_solver | reflexivity]
                 | exists "react"; split; [set_solver | reflexivity]
                 | exists "node.js"; split; [set_solver | reflexivity] ]|]).
  inversion Hr.
Defined.

(** ** The routes and the session store *)

(** The answer and the insights of /ask depend on the query and on the
    dataset only: neither the session the request names, nor the
    identifier generated for it, nor anything stored in the session
    store changes them. *)
Theorem ask_answer_ignores_sessions (py : builtins) (num : Number float)
    (DATA : list row) (fresh1 fresh2 : string) (data1 data2 : ask_body)
    (S1 S2 : sessions) :
  query data1 = query data2 ->
  exists r1 r2,
    fst (ask py num DATA fresh1 (Some data1) S1) = Return r1
    /\ fst (ask py num DATA fresh2 (Some data2) S2) = Return r2
    /\ answer r1 = answer r2
    /\ insights r1 = insights r2.
Proof.
  intros Hq. rewrite !ask_recorded. cbv zeta.
  assert (sent_query data1 = sent_query data2) as -> by (unfold sent_query; now rewrite Hq).
  destruct (PyStr.is_empty (sent_query data2)).
  - eexists _, _. repeat split.
  - destruct (find_profile DATA (sent_query data2)); eexists _, _; repeat split.
Qed.

Lemma ask_answer_ignores_sessions_witness :
  exists r1 r2,
    fst (ask plain_builtins binary64 sample_dataset "5c1e"
           (Some {| query := Some "python"; session_id := None |}) ∅) = Return r1
    /\ fst (ask plain_builtins binary64 sample_dataset "77aa"
              (Some {| query := Some "python"; session_id := Some "admin" |})
              (<["admin" := new_session "admin"]> ∅)) = Return r2
    /\ answer r1 = answer r2
    /\ insights r1 = insights r2.
Proof.
  apply (ask_answer_ignores_sessions plain_builtins binary64 sample_dataset "5c1e" "77aa"
           {| query := Some "python"; session_id := None |}
           {| query := Some "python"; session_id := Some "admin" |}).
  reflexivity.
Defined.



(** No route deletes a session.  /ask adds the identifier of the session
    it works on to the stored ones and nothing else; /login adds at most
    one identifier, and a rejected login changes nothing at all: the
    store is as before and the response has no session identifier. *)
Theorem routes_keep_sessions (py : builtins) (num : Number float) (DATA : list row)
    (fresh : string) (S : sessions) :
  (forall data,
      dom (snd (ask py num DATA fresh (Some data) S))
      = {[ effective_session_id fresh data ]} ∪ dom S)
  /\ snd (ask py num DATA fresh None S) = S
  /\ (forall body,
         dom S ⊆ dom (snd (login fresh body S))
         /\ (status (fst (login fresh body S)) = "error" ->
             snd (login fresh body S) = S
             /\ login_session_id (fst (login fresh body S)) = None)).
Proof.
  split; [|split; [reflexivity|]].
  - intros data. destruct (ask_store py num DATA fresh data S) as (tail & -> & _).
    apply dom_insert_L.
  - intros body.
    destruct (login_cases fresh body S) as [[_ ->] | [(_ & _ & ->) | (_ & _ & ->)]];
      cbn [fst snd status login_session_id]; split; try discriminate;
      rewrite ?dom_insert_L; set_solver.
Qed.

Lemma routes_keep_sessions_witness :
  snd (login "5c1e" (Some {| username := Some "admin"; password := Some "wrong" |})
         (<["kirubha" := new_session "kirubha"]> ∅))
  = <["kirubha" := new_session "kirubha"]> ∅
  /\ login_session_id
       (fst (login "5c1e" (Some {| username := Some "admin"; password := Some "wrong" |})
               (<["kirubha" := new_session "kirubha"]> ∅))) = None.
Proof.
  apply (proj2 (proj2 (proj2 (routes_keep_sessions plain_builtins binary64 [] "5c1e"
                                (<["kirubha" := new_session "kirubha"]> ∅)))
                      (Some {| username := Some "admin"; password := Some "wrong" |}))).
  reflexivity.
Defined.

(** Login and /ask compose: when a login succeeds, a later /ask that
    carries the returned session identifier writes into the session of
    that user, whose history then starts with the query. *)
Theorem login_then_ask (py : builtins) (num : Number float) (DATA : list row)
    (fresh fresh' : string) (body : option login_body) (q : option string)
    (S : sessions) :
  status (fst (login fresh body S)) = "ok" ->
  exists u tail,
    login_session_id (fst (login fresh body S)) = Some u
    /\ body_username body = Some u
    /\ snd (ask py num DATA fresh'
              (Some {| query := q; session_id := Some u |})
              (snd (login fresh body S))) !! u
       = Some {| history := {| sender := "user"; msg := PyStr.strip (default "" q) |} :: tail;
                 user := u |}.
Proof.
  intros Hok.
  destruct (login_cases fresh body S) as [[_ E] | [(_ & Hm & E) | (_ & _ & E)]];
    rewrite E in Hok |- *; cbn [fst snd status login_session_id] in Hok |- *;
    try discriminate.
  destruct Hm as (u & p & Hu & Hp & Hl). rewrite Hu.
  change (default "" (Some u)) with u.
  assert (PyStr.is_empty u = false) as Hne.
  { destruct (PyStr.is_empty u) eqn:He; [|reflexivity].
    apply is_empty_true in He. subst u.
    apply USERS_entries in Hl as [[? _]|[? _]]; discriminate. }
  exists u.
  destruct (ask_store py num DATA fresh' {| query := q; session_id := Some u |}
              (<[u := new_session u]> S)) as (tail & Hst & _).
  exists tail. split; [reflexivity|]. split; [reflexivity|]. rewrite Hst.
  unfold effective_session_id, prior_session, sent_query. cbn [session_id query].
  rewrite Hne, !lookup_insert_eq. reflexivity.
Qed.

Lemma login_then_ask_witness :
  exists u tail,
    login_session_id
      (fst (login "5c1e" (Some {| username := Some "admin"; password := Some "admin123" |}) ∅))
    = Some u
    /\ body_username (Some {| username := Some "admin"; password := Some "admin123" |})
       = Some u
    /\ snd (ask plain_builtins binary64 sample_dataset "77aa"
              (Some {| query := Some " 1001 "; session_id := Some u |})
              (snd (login "5c1e"
                      (Some {| username := Some "admin"; password := Some "admin123" |})
                      ∅))) !! u
       = Some {| history := {| sender := "user"; msg := PyStr.strip (default "" (Some " 1001 ")) |}
                            :: tail;
                 user := u |}.
Proof.
  apply (login_then_ask plain_builtins binary64 sample_dataset "5c1e" "77aa"
           (Some {| username := Some "admin"; password := Some "admin123" |})
           (Some " 1001 ") ∅).
  reflexivity.
Defined.

(** The routes store messages of two senders only, "user" and "elix":
    a store in which every message has one of these senders is still
    such a store after /login and after /ask. *)
Theorem routes_keep_known_senders (py : builtins) (num : Number float) (DATA : list row)
    (fresh : string) (S : sessions) :
  known_senders S ->
  (forall body, known_senders (snd (login fresh body S)))
  /\ (forall body, known_senders (snd (ask py num DATA fresh body S))).
Proof.
  intros HS.
  assert (forall k (s0 : session),
             (forall m, m ∈ history s0 -> sender m = "user" \/ sender m = "elix") ->
             known_senders (<[k := s0]> S)) as Hins.
  { intros k s0 Hs0 k' s m Hl Hm. destruct (decide (k = k')) as [<-|Hne].
    - rewrite lookup_insert_eq in Hl. injection Hl as <-. auto.
    - rewrite lookup_insert_ne in Hl by assumption. eauto. }
  split.
  - intros body.
    destruct (login_cases fresh body S) as [[_ ->] | [(_ & _ & ->) | (_ & _ & ->)]];
      cbn [snd]; [apply Hins | apply Hins | assumption]; intros m Hm; inversion Hm.
  - intros [data|]; [|assumption].
    assert (forall m, m ∈ history (prior_session data S) ->
                      sender m = "user" \/ sender m = "elix") as Hprior.
    { unfold prior_session. intros m Hm.
      destruct (session_id data) as [s|]; [destruct (PyStr.is_empty s)|];
        try (now inversion Hm).
      destruct (S !! s) as [old|] eqn:Hl; simpl in Hm; [eauto | inversion Hm]. }
    rewrite ask_recorded. cbv zeta.
    destruct (PyStr.is_empty (sent_query data)); [|destruct (find_profile _ _)];
      cbn [snd]; apply Hins; unfold push_message; cbn [history]; intros m;
      rewrite ?elem_of_app, ?list_elem_of_singleton;
      intros H; intuition (subst; auto).
Qed.

Lemma routes_keep_known_senders_witness :
  known_senders
    (snd (ask plain_builtins binary64 sample_dataset "5c1e"
            (Some {| query := Some "python"; session_id := None |}) ∅)).
Proof.
  apply (proj2 (routes_keep_known_senders plain_builtins binary64 sample_dataset "5c1e" ∅
                  ltac:(intros k s m Hl; rewrite lookup_empty in Hl; discriminate))).
Defined.

(** ** The download route: not found, bullets, page bounds *)

Lemma find_student_none (student_id : string) (rows : list row) :
  find_student student_id rows = None
  <-> Forall (fun r => download_id r <> PyStr.strip student_id) rows.
Proof.
  induction rows as [|r rows IH]; simpl.
  - split; [constructor | reflexivity].
  - fold (download_id r). destruct (String.eqb_spec (download_id r) (PyStr.strip student_id)).
    + split; [discriminate | intros H; inversion H; contradiction].
    + rewrite IH. split; [now constructor | intros H; now inversion H].
Qed.

Lemma find_student_some (student_id : string) (rows : list row) (r : row) :
  find_student student_id rows = Some r ->
  r ∈ rows /\ download_id r = PyStr.strip student_id.
Proof.
  induction rows as [|r0 rows IH]; simpl; [discriminate|].
  fold (download_id r0).
  destruct (String.eqb_spec (download_id r0) (PyStr.strip student_id)).
  - intros [= <-]. split; [now left | assumption].
  - intros H. destruct (IH H). split; [now right | assumption].
Qed.

Lemma download_plan_result (py : builtins) (DATA : list row) (student_id : string) :
  match find_student student_id DATA with
  | None => download_plan py DATA student_id = HTTPException 404 "Student not found"
  | Some _ => exists out, download_plan py DATA student_id = Return out
  end.
Proof.
  destruct (find_student student_id DATA) as [r|] eqn:Hf.
  - destruct (download_plan_found py DATA student_id r Hf) as (out & -> & _). now exists out.
  - unfold download_plan. now rewrite Hf.
Qed.

(** [download_plan] answers 404 "Student not found" exactly when no record
    of the dataset has the requested identifier (both trimmed, case kept),
    and it raises nothing else. *)
Theorem download_plan_not_found (py : builtins) (DATA : list row) (student_id : string) :
  (download_plan py DATA student_id = HTTPException 404 "Student not found"
   <-> Forall (fun r => download_id r <> PyStr.strip student_id) DATA)
  /\ (forall code detail,
         download_plan py DATA student_id = HTTPException code detail ->
         code = 404%Z /\ detail = "Student not found").
Proof.
  pose proof (download_plan_result py DATA student_id) as H.
  rewrite <- find_student_none.
  destruct (find_student student_id DATA) as [r|].
  - destruct H as [out ->]. split; [split; discriminate | discriminate].
  - rewrite H. split; [tauto|]. now intros code detail [= <- <-].
Qed.

(** The identifier test of /download is stricter than the one of /ask:
    whenever [download_plan] finds a student for an identifier,
    [find_profile] resolves the same text to some record. *)
Theorem download_found_implies_resolved (py : builtins) (DATA : list row)
    (student_id : string) (out : download_outcome) :
  download_plan py DATA student_id = Return out ->
  exists r, find_profile DATA student_id = Some r.
Proof.
  intros Hd. pose proof (download_plan_result py DATA student_id) as H.
  destruct (find_student student_id DATA) as [r|] eqn:Hf; [|congruence].
  apply find_student_some in Hf as [Hin Hid].
  unfold find_profile.
  destruct (find_profile_rows (PyStr.lower (PyStr.strip student_id)) DATA) as [r'|] eqn:Hp;
    [now exists r'|].
  apply find_profile_rows_none in Hp. rewrite Forall_forall in Hp.
  exfalso. apply (Hp r Hin). left.
  unfold record_id, normalized. fold (download_id r). now rewrite Hid.
Qed.

Lemma download_found_implies_resolved_witness :
  exists r, find_profile sample_dataset " 1002 " = Some r.
Proof.
  destruct (download_plan_result plain_builtins sample_dataset " 1002 ") as [out Ho].
  exact (download_found_implies_resolved plain_builtins sample_dataset " 1002 " out Ho).
Defined.

Lemma bullets_app (l1 l2 : list canvas_op) : bullets (l1 ++ l2) = bullets l1 ++ bullets l2.
Proof. apply omap_app. Qed.

Lemma drawn_heights_app (l1 l2 : list canvas_op) :
  drawn_heights (l1 ++ l2) = drawn_heights l1 ++ drawn_heights l2.
Proof. apply omap_app. Qed.

Lemma draw_items_bullets (items : list string) (y : Z) (ops : list canvas_op) :
  bullets (snd (draw_items items y ops))
  = bullets ops ++ map (fun item => "- " +:+ item) items.
Proof.
  revert y ops. induction items as [|item items IH]; intros y ops; simpl.
  - now rewrite app_nil_r.
  - destruct (y - 16 <? 80)%Z; rewrite IH, !bullets_app; cbn; now rewrite <- !app_assoc.
Qed.

(** The plan lists every career, every certification and every
    internship of the record once, in this order, each as a bullet
    "- item" at the indent; nothing else is drawn at the indent. *)
Theorem download_plan_bullets (py : builtins) (DATA : list row) (student_id : string)
    (r : row) :
  find_student student_id DATA = Some r ->
  exists out,
    download_plan py DATA student_id = Return out
    /\ bullets (canvas_ops out)
       = map (fun item => "- " +:+ item)
           (safe_split (Str (py_str (cell_or (row_get (Career_Suggestions r) "") "")))
            ++ safe_split (Str (py_str (cell_or (row_get (Certifications r) "") "")))
            ++ safe_split (Str (py_str (cell_or (row_get (Internships r) "") "")))).
Proof.
  intros Hf. unfold download_plan. rewrite Hf. cbv zeta.
  set (c1 := safe_split (Str (py_str (cell_or (row_get (Career_Suggestions r) "") "")))).
  set (c2 := safe_split (Str (py_str (cell_or (row_get (Certifications r) "") "")))).
  set (c3 := safe_split (Str (py_str (cell_or (row_get (Internships r) "") "")))).
  match goal with
  | |- context [draw_items c1 ?y ?ops] =>
      pose proof (draw_items_bullets c1 y ops) as B1;
      destruct (draw_items c1 y ops) as [y1 ops1]
  end.
  match goal with
  | |- context [draw_items c2 ?y ?ops] =>
      pose proof (draw_items_bullets c2 y ops) as B2;
      destruct (draw_items c2 y ops) as [y2 ops2]
  end.
  match goal with
  | |- context [draw_items c3 ?y ?ops] =>
      pose proof (draw_items_bullets c3 y ops) as B3;
      destruct (draw_items c3 y ops) as [y3 ops3]
  end.
  cbn [snd] in B1, B2, B3. eexists. split; [reflexivity|]. cbn [canvas_ops].
  rewrite B3, !bullets_app, B2, !bullets_app, B1, !bullets_app. cbn.
  now rewrite !map_app, <- !app_assoc.
Qed.

Lemma download_plan_bullets_witness :
  exists out,
    download_plan plain_builtins sample_dataset "1003" = Return out
    /\ bullets (canvas_ops out)
       = ["- Security Engineer"; "- SOC Analyst"; "- Penetration Tester";
          "- Security Consultant"; "- CEH"; "- Network+"; "- Security Intern at Q"].
Proof.
  destruct (download_plan_bullets plain_builtins sample_dataset "1003" _ eq_refl)
    as (out & Ho & Hb).
  exists out. split; [exact Ho | exact Hb].
Defined.

Lemma draw_items_heights (lo : Z) (items : list string) (y : Z) (ops : list canvas_op) :
  (lo <= 80)%Z -> (lo <= y <= 750)%Z ->
  Forall (fun h => (lo <= h <= 750)%Z) (drawn_heights ops) ->
  Forall (fun h => (lo <= h <= 750)%Z) (drawn_heights (snd (draw_items items y ops)))
  /\ (lo <= fst (draw_items items y ops) <= 750)%Z
  /\ (items <> [] -> (80 <= fst (draw_items items y ops))%Z).
Proof.
  intros Hlo. revert y ops. induction items as [|item items IH]; intros y ops Hy Hops; simpl.
  - repeat split; [assumption | lia.. | congruence].
  - assert (forall tail, Forall (fun h => (lo <= h <= 750)%Z)
                                (drawn_heights tail) ->
                         Forall (fun h => (lo <= h <= 750)%Z)
                                (drawn_heights ((ops ++ [DrawString 60 y ("- " +:+ item)])
                                                ++ tail))) as Hext.
    { intros tail Ht. rewrite !drawn_heights_app, !Forall_app. cbn.
      repeat split; [assumption | | assumption]. constructor; [lia | constructor]. }
    destruct (y - 16 <? 80)%Z eqn:Hc.
    + destruct (IH 750%Z ((ops ++ [DrawString 60 y ("- " +:+ item)]) ++ [ShowPage]))
        as (H1 & H2 & H3); [lia | apply Hext; constructor |].
      repeat split; [assumption | lia.. |]. intros _.
      destruct items; [simpl; lia | apply H3; congruence].
    + apply Z.ltb_ge in Hc.
      destruct (IH (y - 16)%Z (ops ++ [DrawString 60 y ("- " +:+ item)]))
        as (H1 & H2 & H3); [lia | |].
      { specialize (Hext [] ltac:(constructor)). now rewrite app_nil_r in Hext. }
      repeat split; [assumption | lia.. |]. intros _.
      destruct items; [simpl; lia | apply H3; congruence].
Qed.

(** Whatever the record holds, every text of the plan is drawn at a
    height between 24 and 750: the page breaks of the bullet loops keep
    the drawing on the page, although section headings and the first
    bullet of a section can fall below the limit 80 that the loops test. *)
Theorem download_plan_heights (py : builtins) (DATA : list row) (student_id : string)
    (out : download_outcome) :
  download_plan py DATA student_id = Return out ->
  Forall (fun h => (24 <= h <= 750)%Z) (drawn_heights (canvas_ops out)).
Proof.
  unfold download_plan. destruct (find_student student_id DATA) as [r|]; [|discriminate].
  cbv zeta.
  set (c1 := safe_split (Str (py_str (cell_or (row_get (Career_Suggestions r) "") "")))).
  set (c2 := safe_split (Str (py_str (cell_or (row_get (Certifications r) "") "")))).
  set (c3 := safe_split (Str (py_str (cell_or (row_get (Internships r) "") "")))).
  assert (forall lo hi : Z, (lo <= hi)%Z ->
            forall l, Forall (fun h => (hi <= h <= 750)%Z) l ->
                      Forall (fun h => (lo <= h <= 750)%Z) l) as Hweak.
  { intros lo hi Hle l Hl. eapply Forall_impl; [exact Hl|]. simpl. intros; lia. }
  match goal with
  | |- context [draw_items c1 ?y ?ops] =>
      destruct (draw_items_heights 80 c1 y ops) as (A1 & A2 & _);
        [lia | lia | repeat (constructor; [lia|]); constructor |];
      destruct (draw_items c1 y ops) as [y1 ops1]
  end.
  cbn [fst snd] in A1, A2.
  match goal with
  | |- context [draw_items c2 ?y ?ops] =>
      destruct (draw_items_heights 52 c2 y ops) as (B1 & B2 & _);
        [lia | lia | |];
      [ rewrite !drawn_heights_app, !Forall_app; cbn;
        repeat split; [apply (Hweak 52 80)%Z; [lia | assumption] | | constructor];
        constructor; [lia | constructor] |];
      destruct (draw_items c2 y ops) as [y2 ops2]
  end.
  cbn [fst snd] in B1, B2.
  match goal with
  | |- context [draw_items c3 ?y ?ops] =>
      destruct (draw_items_heights 24 c3 y ops) as (C1 & C2 & _);
        [lia | lia | |];
      [ rewrite !drawn_heights_app, !Forall_app; cbn;
        repeat split; [apply (Hweak 24 52)%Z; [lia | assumption] | | constructor];
        constructor; [lia | constructor] |];
      destruct (draw_items c3 y ops) as [y3 ops3]
  end.
  cbn [snd] in C1. intros [= <-]. exact C1.
Qed.

Lemma download_plan_heights_witness :
  exists out,
    download_plan plain_builtins sample_dataset "1001" = Return out
    /\ Forall (fun h => (24 <= h <= 750)%Z) (drawn_heights (canvas_ops out)).
Proof.
  destruct (download_plan_result plain_builtins sample_dataset "1001") as [out Ho].
  exists out. split; [exact Ho|].
  exact (download_plan_heights plain_builtins sample_dataset "1001" out Ho).
Defined.

(** ** The insights of a response *)

Lemma roadmaps_five_steps (domain : string) (steps : list roadmap_step) :
  roadmaps !! domain = Some steps -> length steps = 5%nat.
Proof.
  intros H. unfold roadmaps in H. apply elem_of_list_to_map_2 in H.
  repeat (apply elem_of_cons in H as [H|H]; [injection H as -> ->; reflexivity|]).
  inversion H.
Qed.

(** Every response with insights has the same shape: a roadmap of five
    steps, as many radar values as radar labels, each value 20, 60 or
    100, one of the three levels, and one weighted career for every
    career of the record, in order. *)
Theorem insights_shape (py : builtins) (num : Number float) (profile : row) :
  let ins := insights_of py num profile in
  length (i_roadmap ins) = 5%nat
  /\ length (snd (i_radar ins)) = length (fst (i_radar ins))
  /\ Forall (fun v => v = 100%Z \/ v = 60%Z \/ v = 20%Z) (snd (i_radar ins))
  /\ (fst (i_performance ins) = "Excellent" \/ fst (i_performance ins) = "Good"
      \/ fst (i_performance ins) = "Needs Improvement")
  /\ map career (i_career_suggestions ins) = careers_of profile.
Proof.
  unfold insights_of, performance_level, compute_skill_fit. cbv zeta.
  cbn [i_roadmap i_radar i_performance i_career_suggestions fst snd].
  split; [|split; [|split; [|split]]].
  - destruct (roadmaps !! py_str _) as [steps|] eqn:Hr.
    + change (length steps = 5%nat). now apply roadmaps_five_steps in Hr.
    + vm_compute. reflexivity.
  - apply length_map.
  - apply Forall_fmap, Forall_true. intros r. apply skill_fit_value_cases.
  - destruct (num_le _ _); [auto|]. destruct (num_le _ _); auto.
  - apply build_career_weights_shape.
Qed.

(** A record without career text still gets a career.  When the
    Career_Suggestions field is empty in the dataset (NaN), the text
    [str(NaN)] is split, and the record is given the single career "nan"
    with the whole weight; when the dataset has no such column, the
    single career has the empty name. *)
Theorem build_career_weights_without_text (r : row) :
  (Career_Suggestions r = Some NaN ->
   build_career_weights (num := binary64) r = [ {| career := "nan"; weight := 100%float |} ]
   /\ build_career_weights (num := exact) r = [ {| career := "nan"; weight := Qmake 1000 10 |} ])
  /\ (Career_Suggestions r = None ->
      build_career_weights (num := binary64) r = [ {| career := ""; weight := 100%float |} ]
      /\ build_career_weights (num := exact) r = [ {| career := ""; weight := Qmake 1000 10 |} ]).
Proof.
  split; intros H; unfold build_career_weights; rewrite H; split; vm_compute; reflexivity.
Qed.

Lemma build_career_weights_without_text_witness :
  build_career_weights (num := binary64)
    {| Student_ID := Some (Str "7"); Name := Some (Str "Asha"); GPA := None;
       Marks_10th := None; Marks_12th := None; Marks_10th_alt := None;
       Marks_12th_alt := None; Skills := None; Interested_Domain := None;
       Career_Suggestions := Some NaN; Internships := None; Certifications := None |}
  = [ {| career := "nan"; weight := 100%float |} ].
Proof.
  apply (proj1 (build_career_weights_without_text _)). reflexivity.
Defined.

(** ** More on /ask *)

Lemma ask_response_parts (py : builtins) (num : Number float)
    (DATA : list row) (fresh : string) (data : ask_body) (S : sessions) :
  exists r,
    fst (ask py num DATA fresh (Some data) S) = Return r
    /\ (is_Some (insights r)
        <-> sent_query data <> "" /\ is_Some (find_profile DATA (sent_query data)))
    /\ (is_Some (response_session_id r) <-> is_Some (insights r))
    /\ (forall sid, response_session_id r = Some sid ->
                    sid = effective_session_id fresh data).
Proof.
  rewrite ask_recorded. cbv zeta.
  destruct (PyStr.is_empty (sent_query data)) eqn:He.
  - apply is_empty_true in He. eexists. split; [reflexivity|].
    cbn [insights response_session_id].
    split; [|split].
    + split; [intros H; now apply is_Some_None in H | intros [Hne _]; contradiction].
    + split; intros H; now apply is_Some_None in H.
    + intros sid H. discriminate H.
  - assert (sent_query data <> "") as Hne
        by (intros Hq; apply is_empty_true in Hq; congruence).
    destruct (find_profile DATA (sent_query data)) as [profile|];
      (eexists; split; [reflexivity|]); cbn [insights response_session_id].
    + split; [|split].
      * split; eauto.
      * split; eauto.
      * intros sid H. now inversion H.
    + split; [|split].
      * split; [intros H; now apply is_Some_None in H
               | intros [_ H]; now apply is_Some_None in H].
      * split; intros H; now apply is_Some_None in H.
      * intros sid H. discriminate H.
Qed.

(** A response of /ask carries insights exactly when the trimmed query
    is not empty and resolves to a record, and it carries a session
    identifier exactly when it carries insights: a client that sent no
    session identifier and got no match is not told the identifier that
    was generated for it. *)
Theorem ask_insights_and_session_id (py : builtins) (num : Number float)
    (DATA : list row) (fresh : string) (data : ask_body) (S : sessions) :
  exists r,
    fst (ask py num DATA fresh (Some data) S) = Return r
    /\ (is_Some (insights r)
        <-> sent_query data <> "" /\ is_Some (find_profile DATA (sent_query data)))
    /\ (is_Some (response_session_id r) <-> is_Some (insights r))
    /\ (forall sid, response_session_id r = Some sid ->
                    sid = effective_session_id fresh data).
Proof. apply ask_response_parts. Qed.

(** A conversation continues: when a response of /ask returns a session
    identifier and the next request carries it, the second call finds
    the session the first call left, keeps its user and appends to its
    history. *)
Theorem ask_twice_extends_history (py : builtins) (num : Number float) (DATA : list row)
    (fresh fresh' : string) (data : ask_body) (q' : option string) (S : sessions)
    (r : ask_response) (sid : string) :
  fresh <> "" ->
  fst (ask py num DATA fresh (Some data) S) = Return r ->
  response_session_id r = Some sid ->
  exists s1 s2,
    snd (ask py num DATA fresh (Some data) S) !! sid = Some s1
    /\ snd (ask py num DATA fresh' (Some {| query := q'; session_id := Some sid |})
              (snd (ask py num DATA fresh (Some data) S))) !! sid = Some s2
    /\ user s2 = user s1
    /\ history s1 `prefix_of` history s2
    /\ (length (history s1) < length (history s2))%nat.
Proof.
  intros Hfresh Hr Hsid.
  assert (sid = effective_session_id fresh data) as Heff.
  { destruct (ask_response_parts py num DATA fresh data S) as (r' & Hr' & _ & _ & H).
    rewrite Hr in Hr'. injection Hr' as <-. now apply H. }
  assert (PyStr.is_empty sid = false) as Hne.
  { destruct (PyStr.is_empty sid) eqn:He; [|reflexivity]. apply is_empty_true in He.
    subst sid. unfold effective_session_id in He.
    destruct (session_id data) as [s|]; [|congruence].
    destruct (PyStr.is_empty s) eqn:Hs; [congruence|].
    apply is_empty_true in He. congruence. }
  destruct (ask_store py num DATA fresh data S) as (tail1 & Hst1 & _).
  cbv zeta in Hst1. rewrite <- Heff in Hst1.
  rewrite Hst1.
  eexists. 
  destruct (ask_store py num DATA fresh' {| query := q'; session_id := Some sid |}
              (<[sid := {| history := history (prior_session data S) ++
                            {| sender := "user"; msg := sent_query data |} :: tail1;
                           user := user (prior_session data S) |}]> S))
    as (tail & Hst2 & _).
  cbv zeta in Hst2. rewrite Hst2. clear Hst2.
  unfold effective_session_id at 1. cbn [session_id]. rewrite Hne.
  unfold prior_session. cbn [session_id]. rewrite Hne.
  rewrite !lookup_insert_eq. cbn.
  eexists. split; [reflexivity|]. split; [reflexivity|]. cbn [user history].
  split; [reflexivity|]. split; [now apply prefix_app_r|].
  rewrite (length_app (_ ++ _)). simpl. lia.
Qed.

Lemma ask_twice_extends_history_witness :
  exists s1 s2,
    snd (ask plain_builtins binary64 sample_dataset "5c1e"
           (Some {| query := Some "1001"; session_id := None |}) ∅) !! "5c1e" = Some s1
    /\ snd (ask plain_builtins binary64 sample_dataset "77aa"
              (Some {| query := Some "python"; session_id := Some "5c1e" |})
              (snd (ask plain_builtins binary64 sample_dataset "5c1e"
                      (Some {| query := Some "1001"; session_id := None |}) ∅)))
         !! "5c1e" = Some s2
    /\ user s2 = user s1
    /\ history s1 `prefix_of` history s2
    /\ (length (history s1) < length (history s2))%nat.
Proof.
  destruct (ask_response_parts plain_builtins binary64 sample_dataset "5c1e"
              {| query := Some "1001"; session_id := None |} ∅) as (r & Hr & _).
  apply (ask_twice_extends_history plain_builtins binary64 sample_dataset "5c1e" "77aa"
           {| query := Some "1001"; session_id := None |} (Some "python") ∅
           (match fst (ask plain_builtins binary64 sample_dataset "5c1e"
                         (Some {| query := Some "1001"; session_id := None |}) ∅) with
            | Return r => r
            | HTTPException _ _ => {| answer := ""; insights := None;
                                      response_session_id := None |}
            end) "5c1e").
  - discriminate.
  - rewrite Hr. reflexivity.
  - rewrite ask_recorded. vm_compute. reflexivity.
Defined.

(** ** safe_split reads back what a join wrote *)

Lemma split_on_free_id (sep : ascii) (s : string) :
  free_of sep s -> PyStr.split_on sep s = [s].
Proof.
  unfold free_of. induction s as [|c s IH]; simpl; [reflexivity|].
  intros [Hc Hs]%andb_true_iff. apply negb_true_iff in Hc.
  rewrite Hc, (IH Hs). reflexivity.
Qed.

Lemma split_on_app (sep : ascii) (x rest : string) :
  free_of sep x ->
  PyStr.split_on sep (x +:+ String sep rest) = x :: PyStr.split_on sep rest.
Proof.
  unfold free_of. induction x as [|c x IH]; simpl.
  - intros _. change ("" +:+ String sep rest) with (String sep rest).
    simpl. now rewrite Ascii.eqb_refl.
  - intros [Hc Hs]%andb_true_iff. apply negb_true_iff in Hc.
    rewrite Hc, (IH Hs). reflexivity.
Qed.

Lemma split_on_join (sep : ascii) (l : list string) :
  l <> [] -> Forall (free_of sep) l ->
  PyStr.split_on sep (PyStr.join (String sep "") l) = l.
Proof.
  induction l as [|x l IH]; [congruence|]. intros _ Hall.
  apply Forall_cons in Hall as [Hx Hl].
  destruct l as [|y l].
  - simpl. now apply split_on_free_id.
  - change (PyStr.join (String sep "") (x :: y :: l))
      with (x +:+ (String sep "" +:+ PyStr.join (String sep "") (y :: l))).
    rewrite append_cons. change ("" +:+ ?s) with s.
    rewrite split_on_app by assumption. f_equal. now apply IH.
Qed.

Lemma contains_join (sep : ascii) (x y : string) (l : list string) :
  PyStr.contains (String sep "") (PyStr.join (String sep "") (x :: y :: l)) = true.
Proof.
  apply contains_spec. exists x, (PyStr.join (String sep "") (y :: l)).
  reflexivity.
Qed.

Lemma free_of_join (c sep : ascii) (l : list string) :
  Ascii.eqb sep c = false -> Forall (free_of c) l ->
  free_of c (PyStr.join (String sep "") l).
Proof.
  intros Hsep. unfold free_of.
  assert (forall a b, string_forall (fun x => negb (Ascii.eqb x c)) a = true ->
                      string_forall (fun x => negb (Ascii.eqb x c)) b = true ->
                      string_forall (fun x => negb (Ascii.eqb x c)) (a +:+ b) = true) as Happ.
  { induction a as [|d a IH]; intros b Ha Hb; [exact Hb|].
    rewrite append_cons. simpl in *. apply andb_true_iff in Ha as [Hd Ha].
    rewrite Hd. simpl. now apply IH. }
  induction l as [|x l IH]; [reflexivity|]. intros Hall.
  apply Forall_cons in Hall as [Hx Hl]. destruct l as [|y l]; [exact Hx|].
  change (PyStr.join (String sep "") (x :: y :: l))
    with (x +:+ (String sep "" +:+ PyStr.join (String sep "") (y :: l))).
  apply Happ; [exact Hx|]. rewrite append_cons. simpl. rewrite Hsep. simpl.
  now apply IH.
Qed.

Lemma kept_pieces (sep : ascii) (l : list string) :
  Forall (piece_for sep) l ->
  map PyStr.strip (List.filter (fun p => negb (PyStr.is_empty (PyStr.strip p))) l) = l.
Proof.
  induction 1 as [|p l (Hne & Htrim & _) _ IH]; [reflexivity|].
  simpl. rewrite Htrim.
  destruct (PyStr.is_empty p) eqn:He; [apply is_empty_true in He; contradiction|].
  simpl. now rewrite Htrim, IH.
Qed.

(** A list of two or more items written with ";" between them is read
    back by [safe_split] item by item when the items are not empty,
    trimmed and without ";" (commas inside the items do no harm); the
    same holds for "," when the items have neither ";" nor ",". *)
Theorem safe_split_join (sep : ascii) (pieces : list string) :
  sep = ";"%char \/ (sep = ","%char /\ Forall (free_of ";") pieces) ->
  (2 <= length pieces)%nat ->
  Forall (piece_for sep) pieces ->
  safe_split (Str (PyStr.join (String sep "") pieces)) = pieces.
Proof.
  intros Hsep Hlen Hall.
  destruct pieces as [|x [|y l]]; simpl in Hlen; try lia.
  assert (Forall (free_of sep) (x :: y :: l)) as Hfree.
  { eapply Forall_impl; [exact Hall|]. now intros p (_ & _ & H). }
  unfold safe_split, safe_split_seps.
  destruct Hsep as [->|[-> Hsemi]].
  - rewrite contains_join.
    rewrite split_on_join; [now apply (kept_pieces ";") | discriminate | assumption].
  - rewrite (contains_char ";").
    rewrite (free_of_join ";" "," (x :: y :: l) eq_refl Hsemi). simpl negb. cbv iota.
    rewrite contains_join.
    rewrite split_on_join; [now apply (kept_pieces ",") | discriminate | assumption].
Qed.

Lemma safe_split_join_witness :
  safe_split (Str (PyStr.join ";" ["Python"; "Power BI"; "C, C++"]))
  = ["Python"; "Power BI"; "C, C++"].
Proof.
  apply (safe_split_join ";" ["Python"; "Power BI"; "C, C++"]).
  - now left.
  - simpl. lia.
  - repeat constructor; discriminate.
Defined.
